(** * SkyDash telemetry providers: a shallow embedding and its properties

    The three telemetry providers of the backend are embedded here:
    - [DroneState]   (backend/main.py): the synthetic generator;
    - [DJIDrone]     (backend/dji_adapter.py): the snapshot bridge;
    - [MAVLinkDrone] (backend/mavlink_adapter.py): the streaming ingestor.

    Python floats are IEEE 754 binary64 values and are modelled by Rocq's
    primitive floats, which are the same format with the same
    round-to-nearest-even arithmetic; Python integers are modelled by [Z];
    dictionaries used as maps by [gmap]. *)

From Stdlib Require Import ZArith Floats Lia.
From stdpp Require Import gmap strings.

Set Warnings "-inexact-float,-register-all".

#[local] Open Scope Z_scope.

(** ** Python floats *)

Module PyFloat.

(** [float(n)] for a Python integer: the nearest binary64 value, ties to
    even.  CPython raises OverflowError once [n] no longer fits the format
    (beyond 2^1024); the conversion below saturates to infinity there, a
    range no counter of this program reaches. *)
Definition of_int (n : Z) : float :=
  SF2Prim (binary_normalize prec emax n 0 false).

(** The integer nearest to [a / b] for [0 < b], ties to the even one. *)
Definition div_half_even (a b : Z) : Z :=
  let q := a / b in
  match 2 * (a mod b) ?= b with
  | Lt => q
  | Gt => q + 1
  | Eq => if Z.even q then q else q + 1
  end.

(** [round(x, 2)]: CPython rounds the exact binary value of [x] to two
    decimals (ties to even) and returns the binary64 value nearest to that
    decimal; zeros, infinities and NaN round to themselves. *)
Definition round2 (x : float) : float :=
  match Prim2SF x with
  | S754_finite s m e =>
      let n := if 0 <=? e then Zpos m * 2 ^ e * 100
               else div_half_even (Zpos m * 100) (2 ^ (- e)) in
      match n with
      | Zpos h => SF2Prim (SFdiv prec emax (S754_finite s h 0) (S754_finite false 100 0))
      | _ => SF2Prim (S754_zero s)
      end
  | _ => x
  end.

(** [max(a, b)] on two floats: CPython keeps the first argument unless the
    second compares greater. *)
Definition max (a b : float) : float :=
  if PrimFloat.ltb a b then b else a.

(** [x % y] on floats with [y] not zero (the only divisor in this program
    is the literal 360): C's exact [fmod], then moved to the sign of [y]. *)
Definition fmod_mag (mx : positive) (ex : Z) (my : positive) (ey : Z) : Z * Z :=
  let e := Z.min ex ey in
  ((Zpos mx * 2 ^ (ex - e)) mod (Zpos my * 2 ^ (ey - e)), e).

Definition mod_ (x y : float) : float :=
  match Prim2SF x, Prim2SF y with
  | S754_finite sx mx ex, S754_finite sy my ey =>
      let '(r, e) := fmod_mag mx ex my ey in
      if r =? 0 then SF2Prim (S754_zero sy)
      else
        let r' := if Bool.eqb sx sy then r else Zpos my * 2 ^ (ey - e) - r in
        SF2Prim (binary_normalize prec emax (if sy then - r' else r') e false)
  | S754_zero _, S754_finite sy _ _ => SF2Prim (S754_zero sy)
  | S754_zero _, S754_infinity sy => SF2Prim (S754_zero sy)
  | S754_finite sx _ _, S754_infinity sy => if Bool.eqb sx sy then x else y
  | _, _ => nan
  end.

End PyFloat.

(** ** The binary64 format, for reasoning about rounding

    Floats are read through [Prim2SF] as sign, mantissa and exponent.  A
    positive float of mantissa [m] and exponent [e] has the value
    [m * 2^e]; values are compared after scaling by [2^1200], which makes
    every exponent met here a natural number. *)

Module Binary64.

(** The number of binary digits of a mantissa. *)
Definition dg (p : positive) : Z := Zpos (digits2_pos p).

Definition scaled (m e : Z) : Z := m * 2 ^ (e + 1200).

(** The exponent is the one the format gives to a number of this size. *)
Definition canonical (m : positive) (e : Z) : Prop :=
  fexp prec emax (dg m + e) = e.

(** The result of rounding a positive quantity known between [lo] and [hi]
    (both scaled): a zero, a finite float in canonical form, or an infinity
    that stands for a canonical float above the largest exponent. *)
Inductive rounded (s : bool) (lo hi : Z) : spec_float -> Prop :=
| rounded_zero :
    lo <= 0 -> rounded s lo hi (S754_zero s)
| rounded_finite m e :
    canonical m e -> e <= 971 -> lo <= scaled (Zpos m) e <= hi ->
    rounded s lo hi (S754_finite s m e)
| rounded_infinity m e :
    canonical m e -> 971 < e -> lo <= scaled (Zpos m) e <= hi ->
    rounded s lo hi (S754_infinity s).

(** A float that is +infinity or a canonical positive float of value at
    least [lo]. *)
Inductive at_least (lo : Z) : spec_float -> Prop :=
| at_least_infinity : at_least lo (S754_infinity false)
| at_least_finite m e :
    canonical m e -> e <= 971 -> lo <= scaled (Zpos m) e ->
    at_least lo (S754_finite false m e).

(** A float that is a zero, negative, or a canonical positive float of
    value at most [hi]. *)
Inductive at_most (hi : Z) : spec_float -> Prop :=
| at_most_zero s : at_most hi (S754_zero s)
| at_most_negative m e : at_most hi (S754_finite true m e)
| at_most_neg_infinity : at_most hi (S754_infinity true)
| at_most_finite m e :
    canonical m e -> e <= 971 -> scaled (Zpos m) e <= hi ->
    at_most hi (S754_finite false m e).

(** The literals 0.001, 16.8 and 14.0 of the synthetic generator, as the
    format stores them. *)
Definition sf_drain : spec_float := S754_finite false 4611686018427388 (-62).
Definition sf_initial : spec_float := S754_finite false 4728779608739021 (-48).
Definition sf_floor : spec_float := S754_finite false 7881299347898368 (-49).

(** *** Ranges, for the fields of the records

    What is known of a float after an operation whose exact result is
    known between two bounds. *)

(** A zero or a finite float in canonical form, of either sign, whose
    magnitude is at most [hi]. *)
Inductive magnitude (hi : Z) : spec_float -> Prop :=
| magnitude_zero s : magnitude hi (S754_zero s)
| magnitude_finite s m e :
    canonical m e -> e <= 971 -> scaled (Zpos m) e <= hi ->
    magnitude hi (S754_finite s m e).

(** A zero (when [lo] allows it) or a positive finite float in canonical
    form of value between [lo] and [hi]. *)
Inductive within (lo hi : Z) : spec_float -> Prop :=
| within_zero s : lo <= 0 -> within lo hi (S754_zero s)
| within_finite m e :
    canonical m e -> e <= 971 -> lo <= scaled (Zpos m) e <= hi ->
    within lo hi (S754_finite false m e).

(** The number of hundredths [round(x, 2)] rounds a finite [x] to, read off
    [PyFloat.round2]. *)
Definition cents (m : positive) (e : Z) : Z :=
  if 0 <=? e then Zpos m * 2 ^ e * 100
  else PyFloat.div_half_even (Zpos m * 100) (2 ^ (- e)).

(** The float [round(x, 2)] returns for a positive [x] of so many
    hundredths. *)
Definition of_cents (h : Z) : float :=
  match h with
  | Zpos p => SF2Prim (SFdiv prec emax (S754_finite false p 0) (S754_finite false 100 0))
  | _ => SF2Prim (S754_zero false)
  end.

(** A test on the float of [first + i] hundredths. *)
Definition cents_between (lo hi : float) (first i : Z) : bool :=
  (lo <=? of_cents (first + i))%float && (of_cents (first + i) <=? hi)%float.

End Binary64.

(** ** Python values, exceptions and the telemetry record *)

Module Py.

(** The values that flow through the providers: JSON documents decoded by
    [requests], decoded MAVLink fields, and the entries of the returned
    dictionaries. *)
Inductive pyval :=
| PNone
| PBool (b : bool)
| PInt (z : Z)
| PFloat (f : float)
| PStr (s : string)
| PList (l : list pyval)
| PDict (kvs : list (string * pyval)).

Inductive exn :=
| AttributeError
| TypeError
| ValueError
| OverflowError
| RequestException
| JSONDecodeError.

(** A computation that returns or raises. *)
Inductive result (A : Type) :=
| Ok (a : A)
| Raise (e : exn).
Arguments Ok {A} a.
Arguments Raise {A} e.

Definition bind {A B} (r : result A) (k : A -> result B) : result B :=
  match r with
  | Ok a => k a
  | Raise e => Raise e
  end.

(** [try: body  except Exception as e: handler] *)
Definition try_except {A} (body : result A) (handler : exn -> result A) : result A :=
  match body with
  | Ok a => Ok a
  | Raise e => handler e
  end.

Fixpoint assoc (kvs : list (string * pyval)) (k : string) : option pyval :=
  match kvs with
  | [] => None
  | (k', v) :: rest => if String.eqb k' k then Some v else assoc rest k
  end.

(** [d.get(k, dflt)]: only dictionaries have the method. *)
Definition get (d : pyval) (k : string) (dflt : pyval) : result pyval :=
  match d with
  | PDict kvs => Ok (default dflt (assoc kvs k))
  | _ => Raise AttributeError
  end.

(** [int(x)] on a float: truncation toward zero; infinities raise
    OverflowError and NaN raises ValueError. *)
Definition int_ (x : float) : result Z :=
  match Prim2SF x with
  | S754_zero _ => Ok 0
  | S754_finite s m e =>
      let a := if 0 <=? e then Zpos m * 2 ^ e else Zpos m / 2 ^ (- e) in
      Ok (if s then - a else a)
  | S754_infinity _ => Raise OverflowError
  | S754_nan => Raise ValueError
  end.

(** Truth value of an object, as [if] and the conditional expression take it. *)
Definition truthy (v : pyval) : bool :=
  match v with
  | PNone => false
  | PBool b => b
  | PInt z => negb (z =? 0)
  | PFloat f => negb (PrimFloat.eqb f 0%float)
  | PStr s => match s with EmptyString => false | String _ _ => true end
  | PList l => match l with [] => false | _ => true end
  | PDict kvs => match kvs with [] => false | _ => true end
  end.

(** [round(v, 2)]: floats round to two decimals, integers (and booleans,
    which are integers) are returned as integers, anything else has no
    [__round__]. *)
Definition round2 (v : pyval) : result pyval :=
  match v with
  | PFloat f => Ok (PFloat (PyFloat.round2 f))
  | PInt z => Ok (PInt z)
  | PBool b => Ok (PInt (if b then 1 else 0))
  | _ => Raise TypeError
  end.

(** The dictionary every provider returns has the same keys; it is a record
    here, nested as in the source. *)
Record attitude_t := { roll : pyval; pitch : pyval; yaw : pyval }.
Record gps_t := { satellites : pyval; latitude : pyval; longitude : pyval; gps_altitude : pyval }.
Record telemetry := {
  timestamp : pyval;
  altitude : pyval;
  battery_voltage : pyval;
  status : pyval;
  attitude : attitude_t;
  gps : gps_t;
  signal_strength : pyval;
  ground_speed : pyval;
  armed : pyval;
  flight_mode : pyval
}.

End Py.

#[global] Instance result_ret : MRet Py.result := @Py.Ok.
#[global] Instance result_bind : MBind Py.result := fun A B k r => Py.bind r k.

(** ** backend/main.py: the synthetic generator *)

Module DroneState.
Import Py.
#[local] Open Scope float_scope.

(** The attributes set by [__init__]. *)
Record t := {
  start_time : float;
  initial_battery : float;
  battery_drain_rate : float;
  request_count : Z;
  base_altitude : float;
  altitude_variance : float
}.

(** What one call reads from outside the object: the clock and the random
    generator, in the order the body draws them. *)
Record draws := {
  now : float;            (* time.time() *)
  gauss_roll : float;     (* random.gauss(0, 0.67) *)
  gauss_pitch : float;    (* random.gauss(0, 0.67) *)
  sat_count : Z;          (* random.randint(10, 14) *)
  signal : Z;             (* random.randint(85, 100) *)
  speed : float;          (* random.uniform(0.5, 2.5) *)
  lat_jitter : float;     (* random.uniform(-0.0001, 0.0001) *)
  lon_jitter : float      (* random.uniform(-0.0001, 0.0001) *)
}.

Definition __init__ (now : float) : t :=
  {| start_time := now;
     initial_battery := 16.8;
     battery_drain_rate := 0.001;
     request_count := 0;
     base_altitude := 50.0;
     altitude_variance := 5.0 |}.

(** [self.request_count += 1] *)
Definition count_request (self : t) : t :=
  {| start_time := start_time self;
     initial_battery := initial_battery self;
     battery_drain_rate := battery_drain_rate self;
     request_count := (request_count self + 1)%Z;
     base_altitude := base_altitude self;
     altitude_variance := altitude_variance self |}.

(** The local [battery_voltage], computed from the counter already
    incremented. *)
Definition voltage (self : t) : float :=
  PyFloat.max 14.0
    (initial_battery self - battery_drain_rate self * PyFloat.of_int (request_count self)).

(** The local [battery_percentage]; the body computes it and drops it. *)
Definition percentage (battery_voltage : float) : result Z :=
  int_ (((battery_voltage - 14.0) / 2.8) * 100).

Definition flight_status (battery_voltage : float) : string :=
  if 14.0 <? battery_voltage then "ARMED" else "RTL".

Section Body.
(** [math.sin], taken from the C library. *)
Variable math_sin : float -> float.

(** The body after the increment. *)
Definition telemetry_of (d : draws) (self : t) : result telemetry :=
  let elapsed_time := now d - start_time self in
  let altitude := base_altitude self + altitude_variance self * math_sin (elapsed_time * 0.6) in
  let battery_voltage := voltage self in
  _ ← percentage battery_voltage;
  let status := flight_status battery_voltage in
  let roll := PyFloat.round2 (gauss_roll d) in
  let pitch := PyFloat.round2 (gauss_pitch d) in
  let yaw := PyFloat.round2 (PyFloat.mod_ (elapsed_time * 5) 360) in
  let gps_satellites := sat_count d in
  let signal_strength := signal d in
  let ground_speed := PyFloat.round2 (speed d) in
  Ok {| timestamp := PFloat (PyFloat.round2 elapsed_time);
        altitude := PFloat (PyFloat.round2 altitude);
        battery_voltage := PFloat (PyFloat.round2 battery_voltage);
        status := PStr status;
        attitude := {| roll := PFloat roll; pitch := PFloat pitch; yaw := PFloat yaw |};
        gps := {| satellites := PInt gps_satellites;
                  latitude := PFloat (37.7749 + lat_jitter d);
                  longitude := PFloat (-122.4194 + lon_jitter d);
                  gps_altitude := PFloat (PyFloat.round2 altitude) |};
        signal_strength := PInt signal_strength;
        ground_speed := PFloat ground_speed;
        armed := PBool (String.eqb status "ARMED");
        flight_mode := PStr (if String.eqb status "ARMED" then "STABILIZE" else "RTL") |}.

(** [DroneState.get_telemetry]: the object after the call, and what the
    call returns or raises. *)
Definition get_telemetry (d : draws) (self : t) : t * result telemetry :=
  let self := count_request self in
  (self, telemetry_of d self).

(** Successive calls on one object, one [draws] per call; the results are
    listed first call first. *)
Fixpoint calls (ds : list draws) (self : t) : t * list (result telemetry) :=
  match ds with
  | [] => (self, [])
  | d :: ds' =>
      let '(self1, r) := get_telemetry d self in
      let '(self2, rs) := calls ds' self1 in
      (self2, r :: rs)
  end.
End Body.

(** The object while it serves its [n]-th request since it was created at
    [t0]: [count_request] has run [n] times. *)
Definition serving (t0 : float) (n : Z) : t :=
  {| start_time := t0;
     initial_battery := 16.8;
     battery_drain_rate := 0.001;
     request_count := n;
     base_altitude := 50.0;
     altitude_variance := 5.0 |}.

(** Inputs for closed examples: a sine that is flat (the theorems hold for
    any function in its place) and one set of draws. *)
Definition no_swing (x : float) : float := 0.

Definition still_air : draws :=
  {| now := 12.5; gauss_roll := 0.3; gauss_pitch := -0.2; sat_count := 12;
     signal := 90; speed := 1.5; lat_jitter := 0.00005; lon_jitter := -0.00005 |}.

(** A test run over the request numbers [0 .. k-1]. *)
Fixpoint holds_below (f : Z -> bool) (k : nat) : bool :=
  match k with
  | O => true
  | S k' => f (Z.of_nat k') && holds_below f k'
  end.

(** What is tested on the requests before the 3000th: the status is ARMED
    exactly before the 2800th, the percentage is computed without error,
    the reported voltage is at least 14.0 and the next one is not above it. *)
Definition battery_test (n : Z) : bool :=
  let v := voltage (serving 0 n) in
  Bool.eqb (14.0 <? initial_battery (serving 0 n)
                    - battery_drain_rate (serving 0 n) * PyFloat.of_int n) (n <? 2800)%Z
  && match percentage v with Ok _ => true | Raise _ => false end
  && (14.0 <=? PyFloat.round2 v)
  && (PyFloat.round2 (voltage (serving 0 (n + 1))) <=? PyFloat.round2 v).

(** [reset_simulation]: the module-level [drone] is rebound to a fresh
    object, created at the instant of the request. *)
Definition reset_simulation (now : float) (drone : t) : t * list (string * string) :=
  (__init__ now, [("message", "Simulation reset successfully")]).

(** Draws taken 71.9995 seconds after a creation at time 0. *)
Definition late_turn : draws :=
  {| now := 71.9995; gauss_roll := 0.3; gauss_pitch := -0.2; sat_count := 12;
     signal := 90; speed := 1.5; lat_jitter := 0.00005; lon_jitter := -0.00005 |}.

(** What is tested on the requests before the 3000th: the reported voltage
    is not above the initial one. *)
Definition ceiling_test (n : Z) : bool :=
  PyFloat.round2 (voltage (serving 0 n)) <=? 16.8.

End DroneState.

(** ** backend/dji_adapter.py: the snapshot bridge *)

Module DJIDrone.
Import Py.
#[local] Open Scope float_scope.

(** What [self.session.get(url).json()] gives for each of the four
    resources at the time of the call: the decoded document, or the
    exception raised by the request or by the decoder.  The status code of
    the reply is not looked at by the source. *)
Record bridge := {
  api_attitude : result pyval;
  api_battery : result pyval;
  api_gps : result pyval;
  api_status : result pyval
}.

Definition _empty_telemetry (now : float) : telemetry :=
  {| timestamp := PFloat now;
     altitude := PFloat 0.0;
     battery_voltage := PFloat 0.0;
     status := PStr "DISCONNECTED";
     attitude := {| roll := PFloat 0.0; pitch := PFloat 0.0; yaw := PFloat 0.0 |};
     gps := {| satellites := PInt 0; latitude := PFloat 0.0;
               longitude := PFloat 0.0; gps_altitude := PFloat 0.0 |};
     signal_strength := PInt 0;
     ground_speed := PFloat 0.0;
     armed := PBool false;
     flight_mode := PStr "UNKNOWN" |}.

(** The body of the [try]: four requests, then the dictionary display,
    whose entries are evaluated in order. *)
Definition fetch (now : float) (b : bridge) : result telemetry :=
  attitude ← api_attitude b;
  battery ← api_battery b;
  gps ← api_gps b;
  status ← api_status b;
  g_altitude ← get gps "altitude" (PFloat 0.0);
  b_voltage ← get battery "voltage" (PFloat 0.0);
  s_mode ← get status "flight_mode" (PStr "UNKNOWN");
  a_roll ← get attitude "roll" (PFloat 0.0);
  a_pitch ← get attitude "pitch" (PFloat 0.0);
  a_yaw ← get attitude "yaw" (PFloat 0.0);
  g_count ← get gps "satellite_count" (PInt 0);
  g_latitude ← get gps "latitude" (PFloat 0.0);
  g_longitude ← get gps "longitude" (PFloat 0.0);
  g_altitude' ← get gps "altitude" (PFloat 0.0);
  s_signal ← get status "signal_strength" (PInt 0);
  g_speed ← get gps "speed" (PFloat 0.0);
  s_motors ← get status "motors_on" (PBool false);
  s_mode' ← get status "flight_mode" (PStr "UNKNOWN");
  Ok {| timestamp := PFloat now;
        altitude := g_altitude;
        battery_voltage := b_voltage;
        status := s_mode;
        attitude := {| roll := a_roll; pitch := a_pitch; yaw := a_yaw |};
        gps := {| satellites := g_count; latitude := g_latitude;
                  longitude := g_longitude; gps_altitude := g_altitude' |};
        signal_strength := s_signal;
        ground_speed := g_speed;
        armed := s_motors;
        flight_mode := s_mode' |}.

(** A sub-request has failed when the request or the decoding of its reply
    raised, or when the reply is not a JSON object, on which the first
    [.get] raises AttributeError. *)
Definition failed (r : result pyval) : Prop :=
  match r with
  | Ok (PDict _) => False
  | _ => True
  end.

(** [DJIDrone.get_telemetry]; [now] is the clock as the [try] body reads it,
    [later] as the handler reads it when it builds the empty record. *)
Definition get_telemetry (now later : float) (b : bridge) : result telemetry :=
  try_except (fetch now b) (fun _ => Ok (_empty_telemetry later)).

(** An input for closed examples: the position request fails, the other
    three are answered. *)
Definition gps_down : bridge :=
  {| api_attitude := Ok (PDict [("roll", PFloat 1.5); ("pitch", PFloat (-0.5)); ("yaw", PFloat 90)]);
     api_battery := Ok (PDict [("voltage", PFloat 15.2)]);
     api_gps := Raise RequestException;
     api_status := Ok (PDict [("flight_mode", PStr "P-GPS"); ("motors_on", PBool true)]) |}.

(** An input for closed examples: the four requests are answered; the
    position reply has no speed. *)
Definition all_up : bridge :=
  {| api_attitude := Ok (PDict [("roll", PFloat 1.5); ("pitch", PFloat (-0.5)); ("yaw", PFloat 90)]);
     api_battery := Ok (PDict [("voltage", PFloat 15.2)]);
     api_gps := Ok (PDict [("altitude", PFloat 30.5); ("latitude", PFloat 47.39);
                           ("longitude", PFloat 8.54); ("satellite_count", PInt 11)]);
     api_status := Ok (PDict [("flight_mode", PStr "P-GPS"); ("motors_on", PBool true);
                              ("signal_strength", PInt 80)]) |}.

End DJIDrone.

(** ** backend/mavlink_adapter.py: the streaming ingestor *)

Module MAVLinkDrone.
Import Py.
#[local] Open Scope float_scope.

(** A decoded MAVLink message, by [msg.get_type()], with the fields the
    adapter reads; [OTHER] is any type the adapter has no branch for. *)
Inductive message :=
| ATTITUDE (roll pitch yaw : float)
| GLOBAL_POSITION_INT (relative_alt lat lon : Z)
| VFR_HUD (groundspeed alt : float)
| SYS_STATUS (voltage_battery battery_remaining : Z)
| GPS_RAW_INT (satellites_visible fix_type : Z)
| HEARTBEAT (type autopilot base_mode custom_mode : Z)
| OTHER (msg_type : string).

Definition get_type (msg : message) : string :=
  match msg with
  | ATTITUDE _ _ _ => "ATTITUDE"
  | GLOBAL_POSITION_INT _ _ _ => "GLOBAL_POSITION_INT"
  | VFR_HUD _ _ => "VFR_HUD"
  | SYS_STATUS _ _ => "SYS_STATUS"
  | GPS_RAW_INT _ _ => "GPS_RAW_INT"
  | HEARTBEAT _ _ _ _ => "HEARTBEAT"
  | OTHER msg_type => msg_type
  end.

(** [mavutil.mavlink.MAV_MODE_FLAG_SAFETY_ARMED] *)
Definition MAV_MODE_FLAG_SAFETY_ARMED : Z := 128.

(** The transport handle [self.master]. *)
Inductive link := LinkOpen | LinkClosed.

(** Where the background thread stands in [_receive_loop]. *)
Inductive thread_pc := AtLoopHead | InRecv | Finished.

(** What one [recv_match(blocking=True, timeout=1.0)] comes back with. *)
Inductive recv_outcome :=
| Received (msg : message)
| TimedOut
| RecvFailed.

Record t := {
  connection_string : string;
  master : option link;
  latest_telemetry : gmap string pyval;
  running : bool;
  thread : option thread_pc
}.

Definition __init__ (connection_string : string) : t :=
  {| connection_string := connection_string;
     master := None;
     latest_telemetry := ∅;
     running := false;
     thread := None |}.

Definition set_latest (lt : gmap string pyval) (self : t) : t :=
  {| connection_string := connection_string self;
     master := master self;
     latest_telemetry := lt;
     running := running self;
     thread := thread self |}.

Section Adapter.
(** [mavutil.mode_string_v10], pymavlink's decoder of the flight mode. *)
Variable mode_string_v10 : message -> string.

(** The item assignments of the branch [_process_message] takes, in
    program order. *)
Definition assignments (msg : message) : list (string * pyval) :=
  match msg with
  | ATTITUDE roll pitch yaw =>
      [("roll", PFloat (roll * 57.2958));
       ("pitch", PFloat (pitch * 57.2958));
       ("yaw", PFloat (yaw * 57.2958))]
  | GLOBAL_POSITION_INT relative_alt lat lon =>
      [("altitude", PFloat (PyFloat.of_int relative_alt / 1000.0));
       ("latitude", PFloat (PyFloat.of_int lat / 1e7));
       ("longitude", PFloat (PyFloat.of_int lon / 1e7))]
  | VFR_HUD groundspeed alt =>
      [("ground_speed", PFloat groundspeed);
       ("altitude_msl", PFloat alt)]
  | SYS_STATUS voltage_battery battery_remaining =>
      [("battery_voltage", PFloat (PyFloat.of_int voltage_battery / 1000.0));
       ("battery_remaining", PInt battery_remaining)]
  | GPS_RAW_INT satellites_visible fix_type =>
      [("gps_satellites", PInt satellites_visible);
       ("gps_fix_type", PInt fix_type)]
  | HEARTBEAT _ _ base_mode _ =>
      [("armed", PBool (negb (Z.land base_mode MAV_MODE_FLAG_SAFETY_ARMED =? 0)%Z));
       ("flight_mode", PStr (mode_string_v10 msg))]
  | OTHER _ => []
  end.

(** [self.latest_telemetry[k] = v] *)
Definition assign (lt : gmap string pyval) (kv : string * pyval) : gmap string pyval :=
  <[kv.1 := kv.2]> lt.

(** [_process_message], on the dictionary it updates. *)
Definition _process_message (msg : message) (lt : gmap string pyval) : gmap string pyval :=
  foldl assign lt (assignments msg).

(** The keys [get_telemetry] reads with [.get], each with its default, in
    the order the dictionary display evaluates them. *)
Definition reads : list (string * pyval) :=
  [("altitude", PFloat 0.0); ("battery_voltage", PFloat 0.0); ("armed", PBool false);
   ("roll", PFloat 0.0); ("pitch", PFloat 0.0); ("yaw", PFloat 0.0);
   ("gps_satellites", PInt 0); ("latitude", PFloat 0.0); ("longitude", PFloat 0.0);
   ("altitude", PFloat 0.0); ("ground_speed", PFloat 0.0); ("armed", PBool false);
   ("flight_mode", PStr "UNKNOWN")].

(** [self.latest_telemetry.get(k, dflt)] *)
Definition lt_get (lt : gmap string pyval) (kd : string * pyval) : pyval :=
  default kd.2 (lt !! kd.1).

(** The dictionary display of [get_telemetry] over the thirteen values
    read, each rounded where the source rounds it. *)
Definition assemble (now : float) (vs : list pyval) : result telemetry :=
  match vs with
  | [v_alt; v_batt; v_armed; v_roll; v_pitch; v_yaw; v_sats; v_lat; v_lon;
     v_alt'; v_speed; v_armed'; v_mode] =>
      r_roll ← round2 v_roll;
      r_pitch ← round2 v_pitch;
      r_yaw ← round2 v_yaw;
      r_speed ← round2 v_speed;
      Ok {| timestamp := PFloat now;
            altitude := v_alt;
            battery_voltage := v_batt;
            status := PStr (if truthy v_armed then "ARMED" else "DISARMED");
            attitude := {| roll := r_roll; pitch := r_pitch; yaw := r_yaw |};
            gps := {| satellites := v_sats; latitude := v_lat;
                      longitude := v_lon; gps_altitude := v_alt' |};
            signal_strength := PInt 100;
            ground_speed := r_speed;
            armed := v_armed';
            flight_mode := v_mode |}
  | _ => Raise TypeError
  end.

(** [get_telemetry] when nothing runs between its reads. *)
Definition get_telemetry (now : float) (lt : gmap string pyval) : result telemetry :=
  assemble now (lt_get lt <$> reads).

(** *** The background thread *)

(** The body of one loop iteration once [recv_match] has come back. *)
Definition loop_body (r : recv_outcome) (lt : gmap string pyval) : gmap string pyval :=
  match r with
  | Received msg => _process_message msg lt
  | TimedOut => lt
  | RecvFailed => lt
  end.

(** One step of [_receive_loop]: at the loop head the thread tests
    [self.running]; in [recv_match] it waits for the outcome [r], at most
    the one-second timeout. *)
Definition thread_step (r : recv_outcome) (self : t) (pc : thread_pc) : t * thread_pc :=
  match pc with
  | AtLoopHead => (self, if running self then InRecv else Finished)
  | InRecv => (set_latest (loop_body r (latest_telemetry self)) self, AtLoopHead)
  | Finished => (self, Finished)
  end.

(** [n] steps of the thread; a [recv_match] pending among them returns [r]. *)
Definition thread_steps (r : recv_outcome) (n : nat) (self : t) (pc : thread_pc) : t * thread_pc :=
  Nat.iter n (fun c => thread_step r c.1 c.2) (self, pc).

(** [self.thread.join()] once [self.running] is false: the thread ends its
    pending [recv_match], if it is in one, and leaves at the next test. *)
Definition join (r : recv_outcome) (self : t) (pc : thread_pc) : t * thread_pc :=
  thread_steps r 2 self pc.

(** [connect], given whether the link opened and a heartbeat was seen. *)
Definition connect (heartbeat : bool) (self : t) : result t :=
  if heartbeat then
    Ok {| connection_string := connection_string self;
          master := Some LinkOpen;
          latest_telemetry := latest_telemetry self;
          running := true;
          thread := Some AtLoopHead |}
  else Raise RequestException.

(** [disconnect]; [r] is what the pending [recv_match], if any, returns
    while the caller waits in [join]. *)
Definition disconnect (r : recv_outcome) (self : t) : t :=
  let self := {| connection_string := connection_string self;
                 master := master self;
                 latest_telemetry := latest_telemetry self;
                 running := false;
                 thread := thread self |} in
  let self := match thread self with
              | Some pc =>
                  let '(self', pc') := join r self pc in
                  {| connection_string := connection_string self';
                     master := master self';
                     latest_telemetry := latest_telemetry self';
                     running := running self';
                     thread := Some pc' |}
              | None => self
              end in
  {| connection_string := connection_string self;
     master := match master self with Some _ => Some LinkClosed | None => None end;
     latest_telemetry := latest_telemetry self;
     running := running self;
     thread := thread self |}.

(** *** Reads and writes interleaved

    The interpreter lock makes one item assignment and one [.get] atomic,
    and lets the two threads alternate between them.  A configuration
    holds the shared dictionary, the assignments the background thread
    has still to run, the reads a [get_telemetry] call has still to
    make, and the values it has read so far.  Readers do not write, so
    one reader stands for any number of them. *)
Inductive actor := Writer | Reader.

Record config := {
  shared : gmap string pyval;
  pending : list (string * pyval);
  to_read : list (string * pyval);
  seen : list pyval
}.

Definition step (a : actor) (c : config) : config :=
  match a with
  | Writer =>
      match pending c with
      | [] => c
      | kv :: rest =>
          {| shared := assign (shared c) kv; pending := rest;
             to_read := to_read c; seen := seen c |}
      end
  | Reader =>
      match to_read c with
      | [] => c
      | kd :: rest =>
          {| shared := shared c; pending := pending c;
             to_read := rest; seen := seen c ++ [lt_get (shared c) kd] |}
      end
  end.

Definition run (schedule : list actor) (c : config) : config :=
  foldl (fun c a => step a c) c schedule.

(** The background thread is about to process [msgs], and a call of
    [get_telemetry] starts. *)
Definition start (lt : gmap string pyval) (msgs : list message) : config :=
  {| shared := lt; pending := concat (assignments <$> msgs);
     to_read := reads; seen := [] |}.

(** The dictionary once the loop has gone through the outcomes of its
    [recv_match] calls, first to last, from the empty dictionary of
    [__init__]. *)
Definition handled (outcomes : list recv_outcome) : gmap string pyval :=
  foldl (fun lt r => loop_body r lt) ∅ outcomes.

(** What the call returns under a schedule, once all its reads are done. *)
Definition snapshot (now : float) (schedule : list actor)
    (lt : gmap string pyval) (msgs : list message) : option (result telemetry) :=
  let c := run schedule (start lt msgs) in
  match to_read c with
  | [] => Some (assemble now (seen c))
  | _ => None
  end.
End Adapter.

(** The fields each message kind owns, as the specification lists them:
    attitude: roll, pitch, yaw; global position: altitude, latitude,
    longitude; flight data: ground speed, absolute altitude; system status:
    battery voltage, battery remaining; GPS raw: satellites, fix type;
    heartbeat: armed, flight mode; any other kind: none. *)
Definition owned_by_spec (msg : message) : list string :=
  match msg with
  | ATTITUDE _ _ _ => ["roll"; "pitch"; "yaw"]
  | GLOBAL_POSITION_INT _ _ _ => ["altitude"; "latitude"; "longitude"]
  | VFR_HUD _ _ => ["ground_speed"; "altitude_msl"]
  | SYS_STATUS _ _ => ["battery_voltage"; "battery_remaining"]
  | GPS_RAW_INT _ _ => ["gps_satellites"; "gps_fix_type"]
  | HEARTBEAT _ _ _ _ => ["armed"; "flight_mode"]
  | OTHER _ => []
  end.



(** The entries [get_telemetry] rounds. *)
Definition rounded_keys : list string := ["roll"; "pitch"; "yaw"; "ground_speed"].

(** Under the keys that are rounded the dictionary holds floats. *)
Definition floats_where_rounded (lt : gmap string pyval) : Prop :=
  forall k v, k ∈ rounded_keys -> lt !! k = Some v -> exists f, v = PFloat f.

(** A value read under a key is the default passed to [.get] or a value
    some assignment of [writes] gave to that key. *)
Definition from_writes (writes : list (string * pyval)) (kd : string * pyval) (v : pyval) : Prop :=
  v = kd.2 \/ (kd.1, v) ∈ writes.

(** What stays true of a configuration whatever the schedule: the
    dictionary and the pending assignments hold nothing but the writes of
    the messages, and the values read so far answer the reads made so far. *)
Record consistent (writes : list (string * pyval)) (c : config) : Prop := {
  shared_written : forall k v, shared c !! k = Some v -> (k, v) ∈ writes;
  pending_written : forall kv, kv ∈ pending c -> kv ∈ writes;
  seen_read : exists done, reads = done ++ to_read c /\
                           Forall2 (from_writes writes) done (seen c)
}.

(** [math.pi] *)
Definition math_pi : float := 3.141592653589793.

(** Inputs for closed examples: a mode decoder, two position messages and a
    schedule that lets the reader in between the assignments of the second
    one. *)
Definition mode_names (msg : message) : string :=
  match msg with
  | HEARTBEAT _ _ _ 0 => "STABILIZE"
  | HEARTBEAT _ _ _ 6 => "RTL"
  | _ => "UNKNOWN"
  end.

(** The object after [connect], its thread waiting in [recv_match], no
    message received yet. *)
Definition waiting : t :=
  {| connection_string := "udp:127.0.0.1:14550";
     master := Some LinkOpen;
     latest_telemetry := ∅;
     running := true;
     thread := Some InRecv |}.


Definition two_fixes : list message :=
  [GLOBAL_POSITION_INT 10000 10000000 20000000;
   GLOBAL_POSITION_INT 20000 30000000 40000000].

Definition reader_cuts_in : list actor :=
  repeat Writer 5 ++ repeat Reader 13 ++ [Writer].

(** The messages among the outcomes of [recv_match], in order. *)
Definition received (outcomes : list recv_outcome) : list message :=
  omap (fun r => match r with Received msg => Some msg | _ => None end) outcomes.

(** The number of reads a schedule lets the call make. *)
Definition reader_steps (schedule : list actor) : nat :=
  length (List.filter (fun a => match a with Reader => true | Writer => false end) schedule).

(** A schedule that lets the thread store one item between the first read
    of the call and the rest. *)
Definition writer_cuts_in : list actor :=
  repeat Writer 3 ++ [Reader; Writer] ++ repeat Reader 12.

End MAVLinkDrone.

(** * Properties *)

(** ** Rounding in binary64 keeps bounds

    What is needed of the arithmetic is that rounding to nearest never
    crosses a float: a quantity at least (at most) a float rounds to a float
    at least (at most) it.  This is proved below for the rounding function
    of the format's specification, which the axioms of the primitive
    operations refer to. *)

Module FloatOrder.
Import Binary64.

(** [lia] over goals with powers of two: every power met becomes an
    opaque positive number. *)
Ltac hide_pows :=
  repeat match goal with
  | |- context [2 ^ ?e] =>
      let x := fresh "pw" in
      let Hx := fresh "Hpw" in
      assert (Hx : 0 < 2 ^ e) by (apply Z.pow_pos_nonneg; lia);
      set (x := 2 ^ e) in *; clearbody x
  | H : context [2 ^ ?e] |- _ =>
      let x := fresh "pw" in
      let Hx := fresh "Hpw" in
      assert (Hx : 0 < 2 ^ e) by (apply Z.pow_pos_nonneg; lia);
      set (x := 2 ^ e) in *; clearbody x
  end.
Ltac plia := hide_pows; lia.
Ltac pnia := hide_pows; nia.

Lemma dg_pos p : 1 <= dg p.
Proof. unfold dg. lia. Qed.

Lemma dg_bounds p : 2 ^ (dg p - 1) <= Zpos p < 2 ^ dg p.
Proof.
  unfold dg. induction p as [p IH | p IH | ]; cbn [digits2_pos].
  - rewrite Pos2Z.inj_succ.
    replace (Z.succ (Zpos (digits2_pos p)) - 1) with (Z.succ (Zpos (digits2_pos p) - 1)) by lia.
    rewrite !Z.pow_succ_r by lia. plia.
  - rewrite Pos2Z.inj_succ.
    replace (Z.succ (Zpos (digits2_pos p)) - 1) with (Z.succ (Zpos (digits2_pos p) - 1)) by lia.
    rewrite !Z.pow_succ_r by lia. plia.
  - cbn. lia.
Qed.

(** The number of digits is fixed by the power-of-two bracket. *)
Lemma dg_unique p d : 2 ^ (d - 1) <= Zpos p < 2 ^ d -> dg p = d.
Proof.
  intros [Hlo Hhi]. pose proof (dg_bounds p) as [Hl Hh]. pose proof (dg_pos p).
  assert (0 < d).
  { destruct (Z.le_gt_cases d 0) as [Hd|]; [|lia].
    assert (2 ^ d <= 2 ^ 0) by (apply Z.pow_le_mono_r; lia).
    change (2 ^ 0) with 1 in *. lia. }
  destruct (Z.lt_trichotomy (dg p) d) as [Hlt | [Heq | Hgt]]; [|exact Heq|].
  - assert (2 ^ dg p <= 2 ^ (d - 1)) by (apply Z.pow_le_mono_r; lia). plia.
  - assert (2 ^ d <= 2 ^ (dg p - 1)) by (apply Z.pow_le_mono_r; lia). plia.
Qed.

Lemma dg_shift p j q : 0 <= j -> Zpos q = Zpos p * 2 ^ j -> dg q = dg p + j.
Proof.
  intros Hj Hq. apply dg_unique. pose proof (dg_bounds p) as [Hl Hh]. pose proof (dg_pos p).
  replace (dg p + j - 1) with ((dg p - 1) + j) by lia.
  rewrite !Z.pow_add_r by lia. rewrite Hq. pnia.
Qed.

Lemma iter_xO p d : Zpos (Pos.iter xO p d) = Zpos p * 2 ^ Zpos d.
Proof.
  rewrite <- Pos2Z.inj_pow. 
  induction d using Pos.peano_ind.
  - cbn. lia.
  - rewrite Pos.iter_succ. rewrite Pos.pow_succ_r. lia.
Qed.

(** *** Shifting right *)

Lemma shr_1_m mrs : 0 <= shr_m mrs -> shr_m (shr_1 mrs) = shr_m mrs / 2.
Proof.
  destruct mrs as [m r s]; cbn [shr_m]. intros Hm.
  destruct m as [|[p|p|]|p]; cbn [shr_1 shr_m]; [reflexivity | | | reflexivity | lia].
  - apply Z.div_unique with 1; lia.
  - apply Z.div_unique with 0; lia.
Qed.

Lemma shr_iter_m k : forall mrs, 0 <= shr_m mrs ->
  shr_m (SpecFloat.iter_pos shr_1 k mrs) = shr_m mrs / 2 ^ Zpos k.
Proof.
  induction k as [k IH | k IH | ]; intros mrs Hm; cbn [SpecFloat.iter_pos].
  - assert (H1 : 0 <= shr_m (shr_1 mrs)) by (rewrite shr_1_m by lia; apply Z.div_pos; lia).
    assert (H2 : 0 <= shr_m (SpecFloat.iter_pos shr_1 k (shr_1 mrs))).
    { rewrite IH by lia. apply Z.div_pos; [lia | apply Z.pow_pos_nonneg; lia]. }
    rewrite IH, IH, shr_1_m by lia.
    rewrite !Z.div_div by (try apply Z.pow_pos_nonneg; lia).
    f_equal. replace (Zpos k~1) with (1 + Zpos k + Zpos k) by lia.
    rewrite !Z.pow_add_r by lia. change (2 ^ 1) with 2. lia.
  - assert (H2 : 0 <= shr_m (SpecFloat.iter_pos shr_1 k mrs)).
    { rewrite IH by lia. apply Z.div_pos; [lia | apply Z.pow_pos_nonneg; lia]. }
    rewrite IH, IH by lia.
    rewrite !Z.div_div by (try apply Z.pow_pos_nonneg; lia).
    f_equal. replace (Zpos k~0) with (Zpos k + Zpos k) by lia.
    rewrite !Z.pow_add_r by lia. lia.
  - rewrite shr_1_m by lia. reflexivity.
Qed.


Lemma shr_1_exact mrs c :
  shr_m mrs = 2 * c -> 0 <= c -> shr_r mrs = false -> shr_s mrs = false ->
  shr_1 mrs = Build_shr_record c false false.
Proof.
  destruct mrs as [m r s]; cbn [shr_m shr_r shr_s]. intros -> Hc -> ->.
  destruct c as [|c|c]; [reflexivity | reflexivity | lia].
Qed.

Lemma shr_iter_exact k : forall mrs c,
  shr_m mrs = c * 2 ^ Zpos k -> 0 <= c -> shr_r mrs = false -> shr_s mrs = false ->
  SpecFloat.iter_pos shr_1 k mrs = Build_shr_record c false false.
Proof.
  induction k as [k IH | k IH | ]; intros mrs c Hm Hc Hr Hs; cbn [SpecFloat.iter_pos].
  - replace (Zpos k~1) with (1 + Zpos k + Zpos k) in Hm by lia.
    rewrite !Z.pow_add_r in Hm by lia. change (2 ^ 1) with 2 in Hm.
    assert (0 < 2 ^ Zpos k) by (apply Z.pow_pos_nonneg; lia).
    rewrite (shr_1_exact mrs (c * 2 ^ Zpos k * 2 ^ Zpos k)); [| lia | nia | assumption..].
    rewrite (IH (Build_shr_record (c * 2 ^ Zpos k * 2 ^ Zpos k) false false) (c * 2 ^ Zpos k));
      [| reflexivity | nia | reflexivity..].
    apply IH; [reflexivity | lia | reflexivity..].
  - replace (Zpos k~0) with (Zpos k + Zpos k) in Hm by lia.
    rewrite !Z.pow_add_r in Hm by lia.
    assert (0 < 2 ^ Zpos k) by (apply Z.pow_pos_nonneg; lia).
    rewrite (IH mrs (c * 2 ^ Zpos k)); [| lia | nia | assumption..].
    apply IH; [reflexivity | lia | reflexivity..].
  - apply shr_1_exact; [| lia | assumption..]. rewrite Hm. change (2 ^ 1) with 2. lia.
Qed.

Lemma round_nearest_even_bounds m l :
  m <= round_nearest_even m l <= m + 1.
Proof.
  destruct l as [|[| |]]; cbn [round_nearest_even]; try lia.
  destruct (Z.even m); lia.
Qed.

Lemma fexp_eq x : fexp prec emax x = Z.max (x - 53) (-1074).
Proof. reflexivity. Qed.

(** The first shift of the rounding: the mantissa is cut to the exponent
    [e + n], and the cut is exact when nothing is shifted out. *)
Lemma shr_cut m e n :
  0 <= m -> 0 <= n ->
  exists mrs,
    shr (shr_record_of_loc m loc_Exact) e n = (mrs, e + n) /\
    shr_m mrs = m / 2 ^ n /\
    (m mod 2 ^ n = 0 -> loc_of_shr_record mrs = loc_Exact).
Proof.
  intros Hm Hn. destruct n as [|n|n]; [| |lia].
  - exists (shr_record_of_loc m loc_Exact). cbn [shr shr_record_of_loc shr_m].
    rewrite Z.add_0_r, Z.div_1_r. auto.
  - exists (SpecFloat.iter_pos shr_1 n (shr_record_of_loc m loc_Exact)). cbn [shr shr_record_of_loc].
    split; [reflexivity|]. split.
    + rewrite shr_iter_m by (cbn; lia). reflexivity.
    + intros Hmod.
      rewrite (shr_iter_exact n _ (m / 2 ^ Zpos n)); [reflexivity | | | reflexivity..].
      * cbn [shr_m]. apply Z.div_exact in Hmod; [lia|]. 
        assert (0 < 2 ^ Zpos n) by (apply Z.pow_pos_nonneg; lia). lia.
      * apply Z.div_pos; [lia | apply Z.pow_pos_nonneg; lia].
Qed.


(** *** What rounding returns *)



Lemma scaled_le m m' e : -1200 <= e -> m <= m' -> scaled m e <= scaled m' e.
Proof.
  intros He Hm. unfold scaled. apply Z.mul_le_mono_nonneg_r; [|exact Hm].
  apply Z.pow_nonneg. lia.
Qed.

Lemma scaled_shift m e j : -1200 <= e -> 0 <= j -> scaled m (e + j) = scaled (m * 2 ^ j) e.
Proof.
  intros He Hj. unfold scaled. replace (e + j + 1200) with (j + (e + 1200)) by lia.
  rewrite Z.pow_add_r by lia. lia.
Qed.

Lemma quotient_lt_2p53 p e :
  let E := fexp prec emax (dg p + e) in
  e <= E -> Zpos p / 2 ^ (E - e) < 2 ^ 53.
Proof.
  intros E HE. pose proof (dg_bounds p) as [_ Hhi]. pose proof (dg_pos p).
  assert (0 < 2 ^ (E - e)) by (apply Z.pow_pos_nonneg; lia).
  apply Z.div_lt_upper_bound; [assumption|].
  rewrite <- Z.pow_add_r by lia.
  assert (2 ^ dg p <= 2 ^ (E - e + 53)); [|lia].
  apply Z.pow_le_mono_r; [lia|]. subst E. rewrite fexp_eq. lia.
Qed.

Lemma quotient_ge_2p52 p e :
  let E := fexp prec emax (dg p + e) in
  e <= E -> -1074 < E -> 2 ^ 52 <= Zpos p / 2 ^ (E - e).
Proof.
  intros E HE Hn. pose proof (dg_bounds p) as [Hlo _]. pose proof (dg_pos p).
  assert (0 < 2 ^ (E - e)) by (apply Z.pow_pos_nonneg; lia).
  apply Z.div_le_lower_bound; [assumption|].
  rewrite <- Z.pow_add_r by lia.
  assert (E - e + 52 = dg p - 1) as -> ; [|assumption].
  subst E. rewrite fexp_eq in *. lia.
Qed.

Lemma round_aux_rounded s p e :
  -1200 <= e -> e <= fexp prec emax (dg p + e) ->
  let E := fexp prec emax (dg p + e) in
  let q := Zpos p / 2 ^ (E - e) in
  rounded s (scaled q E)
    (if Zpos p mod 2 ^ (E - e) =? 0 then scaled q E else scaled (q + 1) E)
    (binary_round_aux prec emax s (Zpos p) e loc_Exact).
Proof.
  intros He HE E q.
  pose proof (quotient_lt_2p53 p e HE) as Hq53. fold E in Hq53. fold q in Hq53.
  pose proof (quotient_ge_2p52 p e HE) as Hq52. fold E in Hq52. fold q in Hq52.
  assert (HEmin : -1074 <= E) by (subst E; rewrite fexp_eq; lia).
  assert (Hq0 : 0 <= q) by (apply Z.div_pos; [lia | apply Z.pow_pos_nonneg; lia]).
  unfold binary_round_aux, shr_fexp. cbn [Zdigits2]. fold (dg p). fold E.
  destruct (shr_cut (Zpos p) e (E - e)) as (mrs & Hshr & Hm & Hex); [lia | lia |].
  rewrite Hshr. replace (e + (E - e)) with E by lia. fold q in Hm.
  pose proof (round_nearest_even_bounds (shr_m mrs) (loc_of_shr_record mrs)) as Hrb.
  set (m1 := round_nearest_even (shr_m mrs) (loc_of_shr_record mrs)) in *.
  rewrite Hm in Hrb.
  assert (Hhi : scaled m1 E <=
                if Zpos p mod 2 ^ (E - e) =? 0 then scaled q E else scaled (q + 1) E).
  { destruct (Z.eqb_spec (Zpos p mod 2 ^ (E - e)) 0) as [H0|H0].
    - subst m1. rewrite (Hex H0). cbn [round_nearest_even]. rewrite Hm. lia.
    - apply scaled_le; lia. }
  assert (Hlo : scaled q E <= scaled m1 E) by (apply scaled_le; lia).
  clearbody m1. destruct m1 as [|m1|m1]; [| |lia].
  - (* the rounded mantissa is zero *)
    cbn [Zdigits2]. rewrite Z.add_0_l.
    assert (Hn : fexp prec emax E - E <= 0) by (rewrite fexp_eq; lia).
    destruct (fexp prec emax E - E) as [|n|n] eqn:Hn2; [| lia |];
      cbn [shr shr_record_of_loc shr_m]; apply rounded_zero;
      replace q with 0 by lia; reflexivity.
  - cbn [Zdigits2]. fold (dg m1).
    pose proof (dg_bounds m1) as [Hd1 Hd2]. pose proof (dg_pos m1).
    destruct (Z.eq_dec (Zpos m1) (2 ^ 53)) as [Htop|Htop].
    + (* the mantissa reached 2^53: one more shift *)
      assert (m1 = 9007199254740992%positive) by (apply Pos2Z.inj; rewrite Htop; reflexivity).
      subst m1. change (dg 9007199254740992) with 54.
      replace (fexp prec emax (54 + E) - E) with 1 by (rewrite fexp_eq; lia).
      cbn [shr shr_record_of_loc SpecFloat.iter_pos shr_1 shr_m].
      assert (Hc : canonical 4503599627370496 (E + 1)).
      { unfold canonical. change (dg 4503599627370496) with 53. rewrite fexp_eq. lia. }
      assert (Hs : scaled (Zpos 4503599627370496) (E + 1) = scaled (Zpos 9007199254740992) E).
      { rewrite scaled_shift by lia. reflexivity. }
      destruct (Z.leb_spec (E + 1) (emax - prec)) as [Hle|Hgt]; change (emax - prec) with 971 in *.
      * apply rounded_finite; [exact Hc | lia | rewrite Hs; lia].
      * apply (rounded_infinity _ _ _ 4503599627370496 (E + 1)); [exact Hc | lia | rewrite Hs; lia].
    + assert (Hlt : Zpos m1 < 2 ^ 53) by lia.
      assert (Hd53 : dg m1 <= 53).
      { destruct (Z.le_gt_cases (dg m1) 53) as [|Hg]; [assumption|].
        assert (2 ^ 53 <= 2 ^ (dg m1 - 1)) by (apply Z.pow_le_mono_r; lia). lia. }
      assert (Hn : fexp prec emax (dg m1 + E) - E <= 0) by (rewrite fexp_eq; lia).
      assert (Hc : canonical m1 E).
      { unfold canonical. rewrite fexp_eq.
        destruct (Z.eq_dec E (-1074)) as [->|HEn]; [lia|].
        assert (2 ^ 52 <= Zpos m1) by lia.
        assert (53 <= dg m1); [|lia].
        destruct (Z.le_gt_cases 53 (dg m1)) as [|Hg]; [assumption|].
        assert (2 ^ dg m1 <= 2 ^ 52) by (apply Z.pow_le_mono_r; lia). lia. }
      destruct (fexp prec emax (dg m1 + E) - E) as [|n|n] eqn:Hn2; [| lia |];
        cbn [shr shr_record_of_loc shr_m];
        (destruct (Z.leb_spec E (emax - prec)) as [Hle|Hgt]; change (emax - prec) with 971 in *;
         [ apply rounded_finite; [exact Hc | lia | lia]
         | apply (rounded_infinity _ _ _ m1 E); [exact Hc | lia | lia] ]).
Qed.


Lemma canonical_bounds m e :
  canonical m e -> -1074 <= e /\ Zpos m < 2 ^ 53 /\ (-1074 < e -> 2 ^ 52 <= Zpos m).
Proof.
  unfold canonical. rewrite fexp_eq. intros Hc. pose proof (dg_pos m).
  split; [lia|]. split.
  - assert (2 ^ dg m <= 2 ^ 53) by (apply Z.pow_le_mono_r; lia).
    pose proof (dg_bounds m) as [_ Hhi]. lia.
  - intros He. assert (Hd : dg m - 1 = 52) by lia.
    pose proof (dg_bounds m) as [Hlo _]. rewrite Hd in Hlo. exact Hlo.
Qed.

Lemma scaled_lt_next m e m' e' :
  -1200 <= e -> e < e' -> m < 2 ^ 53 -> 2 ^ 52 <= m' -> scaled m e < scaled m' e'.
Proof.
  intros He Hee Hm Hm'. unfold scaled.
  replace (e' + 1200) with ((e' - e - 1) + 1 + (e + 1200)) by lia.
  rewrite (Z.pow_add_r 2 (e' - e - 1 + 1) (e + 1200)) by lia.
  rewrite (Z.pow_add_r 2 (e' - e - 1) 1) by lia. change (2 ^ 1) with 2.
  assert (0 < 2 ^ (e + 1200)) by (apply Z.pow_pos_nonneg; lia).
  assert (0 < 2 ^ (e' - e - 1)) by (apply Z.pow_pos_nonneg; lia).
  change (2 ^ 53) with 9007199254740992 in *. change (2 ^ 52) with 4503599627370496 in *.
  assert (m * 2 ^ (e + 1200) < 9007199254740992 * 2 ^ (e + 1200)) by nia.
  assert (4503599627370496 * (2 ^ (e' - e - 1) * 2 * 2 ^ (e + 1200))
          <= m' * (2 ^ (e' - e - 1) * 2 * 2 ^ (e + 1200))) by nia.
  nia.
Qed.

(** On canonical positive floats the comparison of the format is the
    comparison of the values. *)
Lemma compare_canonical m1 e1 m2 e2 :
  canonical m1 e1 -> canonical m2 e2 ->
  SFcompare (S754_finite false m1 e1) (S754_finite false m2 e2)
  = Some (scaled (Zpos m1) e1 ?= scaled (Zpos m2) e2).
Proof.
  intros H1 H2. cbn [SFcompare].
  destruct (canonical_bounds _ _ H1) as (He1 & Hm1 & Hn1).
  destruct (canonical_bounds _ _ H2) as (He2 & Hm2 & Hn2).
  f_equal. destruct (Z.compare_spec e1 e2) as [Heq|Hlt|Hgt].
  - subst e2. change (Pos.compare_cont Eq m1 m2) with (Zpos m1 ?= Zpos m2).
    unfold scaled. assert (0 < 2 ^ (e1 + 1200)) by (apply Z.pow_pos_nonneg; lia).
    destruct (Z.compare_spec (Zpos m1) (Zpos m2)); symmetry;
      [apply Z.compare_eq_iff | apply Z.compare_lt_iff | apply Z.compare_gt_iff]; nia.
  - symmetry. apply Z.compare_lt_iff. apply scaled_lt_next; lia.
  - symmetry. apply Z.compare_gt_iff. apply scaled_lt_next; lia.
Qed.

Section Grid.
Variables (p : positive) (e : Z).
Let E := fexp prec emax (dg p + e).
Let q := Zpos p / 2 ^ (E - e).
Hypothesis He : -1200 <= e.
Hypothesis HE : e <= E.

Lemma cut_below : q * 2 ^ (E - e) <= Zpos p.
Proof.
  assert (0 < 2 ^ (E - e)) by (apply Z.pow_pos_nonneg; lia).
  unfold q. pose proof (Z.mul_div_le (Zpos p) (2 ^ (E - e))). lia.
Qed.

Lemma scaled_cut c : scaled c E = scaled (c * 2 ^ (E - e)) e.
Proof. replace E with (e + (E - e)) at 1 by lia. apply scaled_shift; lia. Qed.

Lemma grid_lower m0 e0 :
  canonical m0 e0 -> scaled (Zpos m0) e0 <= scaled (Zpos p) e ->
  scaled (Zpos m0) e0 <= scaled q E.
Proof.
  intros Hc Hle. destruct (canonical_bounds _ _ Hc) as (He0 & Hm0 & _).
  assert (Hpk : 0 < 2 ^ (E - e)) by (apply Z.pow_pos_nonneg; lia).
  assert (Hpe : 0 < 2 ^ (e + 1200)) by (apply Z.pow_pos_nonneg; lia).
  destruct (Z.le_gt_cases E e0) as [Hge|Hlt].
  - replace e0 with (E + (e0 - E)) by lia. rewrite scaled_shift by lia.
    apply scaled_le; [lia|]. apply Z.div_le_lower_bound; [assumption|].
    replace e0 with (E + (e0 - E)) in Hle by lia.
    rewrite scaled_shift, scaled_cut in Hle by lia. unfold scaled in Hle.
    assert (0 < 2 ^ (e0 - E)) by (apply Z.pow_pos_nonneg; lia). nia.
  - apply Z.lt_le_incl. apply Z.lt_le_trans with (scaled (2 ^ 52) E).
    + apply scaled_lt_next; lia.
    + apply scaled_le; [lia|]. apply quotient_ge_2p52; [assumption | fold E; lia].
Qed.

Lemma grid_upper m0 e0 :
  canonical m0 e0 -> scaled (Zpos p) e <= scaled (Zpos m0) e0 ->
  (if Zpos p mod 2 ^ (E - e) =? 0 then scaled q E else scaled (q + 1) E)
  <= scaled (Zpos m0) e0.
Proof.
  intros Hc Hle. destruct (canonical_bounds _ _ Hc) as (He0 & Hm0 & _).
  assert (Hpk : 0 < 2 ^ (E - e)) by (apply Z.pow_pos_nonneg; lia).
  assert (Hpe : 0 < 2 ^ (e + 1200)) by (apply Z.pow_pos_nonneg; lia).
  pose proof cut_below as Hcut.
  assert (Hqp : scaled q E <= scaled (Zpos p) e).
  { rewrite scaled_cut. apply scaled_le; lia. }
  destruct (Z.eqb_spec (Zpos p mod 2 ^ (E - e)) 0) as [H0|H0]; [lia|].
  assert (Hstrict : q * 2 ^ (E - e) < Zpos p).
  { pose proof (Z.div_mod (Zpos p) (2 ^ (E - e))) as Hdm. fold q in Hdm.
    pose proof (Z.mod_pos_bound (Zpos p) (2 ^ (E - e)) Hpk). lia. }
  clear H0.
  destruct (Z.le_gt_cases E e0) as [Hge|Hlt].
  - assert (0 < 2 ^ (e0 - E)) by (apply Z.pow_pos_nonneg; lia).
    replace e0 with (E + (e0 - E)) by lia. rewrite scaled_shift by lia.
    apply scaled_le; [lia|].
    replace e0 with (E + (e0 - E)) in Hle by lia.
    rewrite scaled_shift, scaled_cut in Hle by lia. unfold scaled in Hle.
    apply Z.mul_le_mono_pos_r in Hle; [|assumption].
    assert (Hlt : q * 2 ^ (E - e) < Zpos m0 * 2 ^ (e0 - E) * 2 ^ (E - e)) by lia.
    apply Z.mul_lt_mono_pos_r in Hlt; [lia | assumption].
  - exfalso.
    assert (scaled (Zpos m0) e0 < scaled (2 ^ 52) E) by (apply scaled_lt_next; lia).
    assert (scaled (2 ^ 52) E <= scaled q E).
    { apply scaled_le; [lia|]. apply quotient_ge_2p52; [assumption | fold E; lia]. }
    lia.
Qed.
End Grid.


(** *** Bounds that survive rounding *)



Lemma at_least_valid lo x : at_least lo x -> SpecFloat.valid_binary prec emax x = true.
Proof.
  intros [|m e Hc He _]; [reflexivity|]. cbn [valid_binary]. unfold bounded, canonical_mantissa.
  fold (dg m). rewrite Hc, Z.eqb_refl. cbn [andb]. apply Z.leb_le. exact He.
Qed.

Lemma round_aux_at_least p e m0 e0 :
  -1200 <= e -> e <= fexp prec emax (dg p + e) ->
  canonical m0 e0 -> scaled (Zpos m0) e0 <= scaled (Zpos p) e ->
  at_least (scaled (Zpos m0) e0) (binary_round_aux prec emax false (Zpos p) e loc_Exact).
Proof.
  intros He HE Hc Hle. destruct (canonical_bounds _ _ Hc) as (He0 & _ & _).
  pose proof (grid_lower p e He HE m0 e0 Hc Hle) as Hlo.
  assert (Hpos : 0 < scaled (Zpos m0) e0).
  { unfold scaled. apply Z.mul_pos_pos; [lia|]. apply Z.pow_pos_nonneg; lia. }
  destruct (round_aux_rounded false p e He HE) as [H0 | m e' Hcm Hem Hb | m e' Hcm Hem Hb].
  - lia.
  - apply at_least_finite; [assumption | assumption | lia].
  - apply at_least_infinity.
Qed.

Lemma round_aux_at_most p e m0 e0 :
  -1200 <= e -> e <= fexp prec emax (dg p + e) ->
  canonical m0 e0 -> e0 <= 971 -> scaled (Zpos p) e <= scaled (Zpos m0) e0 ->
  at_most (scaled (Zpos m0) e0) (binary_round_aux prec emax false (Zpos p) e loc_Exact).
Proof.
  intros He HE Hc He0 Hle. destruct (canonical_bounds _ _ Hc) as (Hmin & Hm0 & _).
  pose proof (grid_upper p e He HE m0 e0 Hc Hle) as Hhi.
  destruct (round_aux_rounded false p e He HE) as [H0 | m e' Hcm Hem Hb | m e' Hcm Hem Hb].
  - apply at_most_zero.
  - apply at_most_finite; [assumption | assumption | lia].
  - exfalso. destruct (canonical_bounds _ _ Hcm) as (_ & _ & Hm).
    assert (scaled (Zpos m0) e0 < scaled (Zpos m) e') by (apply scaled_lt_next; lia).
    lia.
Qed.

Lemma round_aux_negative p e hi :
  -1200 <= e -> e <= fexp prec emax (dg p + e) ->
  at_most hi (binary_round_aux prec emax true (Zpos p) e loc_Exact).
Proof.
  intros He HE.
  destruct (round_aux_rounded true p e He HE) as [H0 | m e' Hcm Hem Hb | m e' Hcm Hem Hb].
  - apply at_most_zero.
  - apply at_most_negative.
  - apply at_most_neg_infinity.
Qed.

(** *** Alignment and [binary_round] *)

Lemma shl_align_spec mx ex ex' :
  let '(mz, ez) := shl_align mx ex ex' in
  ez = Z.min ex ex' /\ Zpos mz = Zpos mx * 2 ^ (ex - ez).
Proof.
  unfold shl_align. destruct (ex' - ex) as [|d|d] eqn:Hd.
  - split; [lia|]. rewrite Z.sub_diag. lia.
  - split; [lia|]. rewrite Z.sub_diag. lia.
  - split; [lia|]. rewrite iter_xO. f_equal. f_equal. lia.
Qed.

Lemma binary_round_aligned s p e :
  -1200 <= e ->
  exists mz ez,
    binary_round prec emax s p e = binary_round_aux prec emax s (Zpos mz) ez loc_Exact /\
    -1200 <= ez /\ ez <= fexp prec emax (dg mz + ez) /\
    scaled (Zpos mz) ez = scaled (Zpos p) e.
Proof.
  intros He. unfold binary_round. fold (dg p).
  pose proof (shl_align_spec p e (fexp prec emax (dg p + e))) as Hs.
  destruct (shl_align p e (fexp prec emax (dg p + e))) as [mz ez].
  destruct Hs as [Hez Hmz]. exists mz, ez. split; [reflexivity|].
  assert (Hmin : -1074 <= fexp prec emax (dg p + e)) by (rewrite fexp_eq; lia).
  assert (Hdg : dg mz = dg p + (e - ez)) by (apply dg_shift; [lia | exact Hmz]).
  split; [lia|]. split.
  - rewrite Hdg. replace (dg p + (e - ez) + ez) with (dg p + e) by lia. lia.
  - rewrite Hmz, <- scaled_shift by lia. f_equal. lia.
Qed.

Lemma binary_round_at_least p e m0 e0 :
  -1200 <= e -> canonical m0 e0 -> scaled (Zpos m0) e0 <= scaled (Zpos p) e ->
  at_least (scaled (Zpos m0) e0) (binary_round prec emax false p e).
Proof.
  intros He Hc Hle. destruct (binary_round_aligned false p e He) as (mz & ez & -> & H1 & H2 & H3).
  apply round_aux_at_least; [assumption.. | lia].
Qed.

Lemma binary_round_at_most p e m0 e0 :
  -1200 <= e -> canonical m0 e0 -> e0 <= 971 -> scaled (Zpos p) e <= scaled (Zpos m0) e0 ->
  at_most (scaled (Zpos m0) e0) (binary_round prec emax false p e).
Proof.
  intros He Hc He0 Hle. destruct (binary_round_aligned false p e He) as (mz & ez & -> & H1 & H2 & H3).
  apply round_aux_at_most; [assumption.. | lia].
Qed.

Lemma binary_round_negative p e hi :
  -1200 <= e -> at_most hi (binary_round prec emax true p e).
Proof.
  intros He. destruct (binary_round_aligned true p e He) as (mz & ez & -> & H1 & H2 & H3).
  apply round_aux_negative; assumption.
Qed.

Lemma at_most_not_above hi m0 e0 x :
  canonical m0 e0 -> hi = scaled (Zpos m0) e0 -> at_most hi x ->
  SFltb (S754_finite false m0 e0) x = false.
Proof.
  intros Hc -> [s | m e | | m e Hcm He Hle]; unfold SFltb; [reflexivity.. |].
  rewrite (compare_canonical _ _ _ _ Hc Hcm).
  destruct (Z.compare_spec (scaled (Zpos m0) e0) (scaled (Zpos m) e)); [reflexivity | lia | reflexivity].
Qed.


Lemma at_least_weaken lo lo' x : lo' <= lo -> at_least lo x -> at_least lo' x.
Proof.
  intros Hle [|m e Hc He Hlo]; [apply at_least_infinity|].
  apply at_least_finite; [assumption | assumption | lia].
Qed.

Lemma dg_at_least p d : 2 ^ (d - 1) <= Zpos p -> d <= dg p.
Proof.
  intros Hp. pose proof (dg_bounds p) as [_ Hhi].
  destruct (Z.le_gt_cases d (dg p)) as [|Hgt]; [assumption|].
  assert (2 ^ dg p <= 2 ^ (d - 1)) by (apply Z.pow_le_mono_r; lia). lia.
Qed.

(** *** The battery floor of the synthetic generator

    The constants of the generator in the format: 0.001, 16.8 and 14.0 are
    the binary64 values nearest to the decimals. *)

Lemma prim_constants :
  Prim2SF 0.001 = sf_drain /\ Prim2SF 16.8 = sf_initial /\ Prim2SF 14.0 = sf_floor.
Proof. repeat split; vm_compute; reflexivity. Qed.

(** [float(n)] for [n >= 3000] is at least 3000. *)
Lemma of_int_at_least n :
  3000 <= n -> at_least (3000 * 2 ^ 1200) (binary_normalize prec emax n 0 false).
Proof.
  intros Hn. destruct n as [|p|p]; [lia | | lia]. cbn [binary_normalize].
  assert (Hc : canonical 6597069766656000 (-41)) by reflexivity.
  assert (Hs : scaled (Zpos 6597069766656000) (-41) = 3000 * 2 ^ 1200) by (vm_compute; reflexivity).
  rewrite <- Hs. apply binary_round_at_least; [lia | exact Hc |].
  rewrite Hs. unfold scaled. change (0 + 1200) with 1200. 
  apply Z.mul_le_mono_nonneg_r; [apply Z.pow_nonneg; lia | exact Hn].
Qed.

(** [0.001 * y] for [y >= 3000] is at least 3. *)
Lemma drain_at_least y :
  at_least (3000 * 2 ^ 1200) y -> at_least (3 * 2 ^ 1200) (SF64mul sf_drain y).
Proof.
  intros [|m e Hc He Hlo]; [apply at_least_infinity|].
  destruct (canonical_bounds _ _ Hc) as (Hmin & _ & _).
  unfold SF64mul, sf_drain, SFmul. cbn [xorb].
  assert (Hc3 : canonical 6755399441055744 (-51)) by reflexivity.
  assert (Hs3 : scaled (Zpos 6755399441055744) (-51) = 3 * 2 ^ 1200) by (vm_compute; reflexivity).
  rewrite <- Hs3. apply round_aux_at_least; [lia | | exact Hc3 |].
  - rewrite fexp_eq.
    assert (53 <= dg (4611686018427388 * m)); [|lia].
    apply dg_at_least. change (2 ^ (53 - 1)) with 4503599627370496. lia.
  - rewrite Hs3. unfold scaled in *. rewrite Pos2Z.inj_mul.
    replace (e + 1200) with (62 + (-62 + e + 1200)) in Hlo by lia.
    rewrite Z.pow_add_r in Hlo by lia. change (2 ^ 62) with 4611686018427387904 in Hlo.
    hide_pows. nia.
Qed.

(** [16.8 - z] for [z >= 3] does not exceed 14.0. *)
Lemma initial_minus_not_above z :
  at_least (3 * 2 ^ 1200) z -> SFltb sf_floor (SF64sub sf_initial z) = false.
Proof.
  intros [|m e Hc He Hlo]; [reflexivity|].
  destruct (canonical_bounds _ _ Hc) as (Hmin & _ & _).
  assert (Hc14 : canonical 7881299347898368 (-49)) by reflexivity.
  assert (Hs14 : scaled (Zpos 7881299347898368) (-49) = 14 * 2 ^ 1200) by (vm_compute; reflexivity).
  assert (Hs168 : scaled (Zpos 4728779608739021) (-48) <= 17 * 2 ^ 1200) by (vm_compute; discriminate).
  unfold SF64sub, sf_initial, SFsub. cbn [cond_Zopp].
  set (ez := Z.min (-48) e).
  pose proof (shl_align_spec 4728779608739021 (-48) ez) as Hx.
  pose proof (shl_align_spec m e ez) as Hz.
  destruct (shl_align 4728779608739021 (-48) ez) as [mx' ex'].
  destruct (shl_align m e ez) as [mz' ez']. cbn [fst].
  destruct Hx as [Hex Hmx]. destruct Hz as [Hez Hmz].
  assert (ex' = ez) by lia. assert (ez' = ez) by lia. subst ex' ez'.
  assert (Hez0 : -1200 <= ez) by lia.
  assert (Hsx : scaled (Zpos mx') ez = scaled (Zpos 4728779608739021) (-48)).
  { rewrite Hmx, <- scaled_shift by lia. f_equal. lia. }
  assert (Hsz : scaled (Zpos mz') ez = scaled (Zpos m) e).
  { rewrite Hmz, <- scaled_shift by lia. f_equal. lia. }
  apply (at_most_not_above (14 * 2 ^ 1200) _ _ _ Hc14); [symmetry; exact Hs14|].
  destruct (Zpos mx' - Zpos mz') as [|d|d] eqn:Hd; cbn [binary_normalize].
  - apply at_most_zero.
  - rewrite <- Hs14. apply binary_round_at_most; [lia | exact Hc14 | lia |].
    rewrite Hs14. 
    assert (scaled (Zpos d) ez = scaled (Zpos mx') ez - scaled (Zpos mz') ez).
    { rewrite <- Hd. unfold scaled. lia. }
    hide_pows. lia.
  - apply binary_round_negative. lia.
Qed.

(** From the 3000th request on, the drained voltage no longer exceeds the
    floor. *)
Lemma floor_reached n :
  3000 <= n ->
  (14.0 <? 16.8 - 0.001 * SF2Prim (binary_normalize prec emax n 0 false))%float = false.
Proof.
  intros Hn. destruct prim_constants as (Hd & Hi & Hf).
  rewrite ltb_spec, sub_spec, mul_spec, Hd, Hi, Hf.
  pose proof (of_int_at_least n Hn) as Hy.
  rewrite Prim2SF_SF2Prim by (eapply at_least_valid; exact Hy).
  apply initial_minus_not_above, drain_at_least, Hy.
Qed.

End FloatOrder.

(** ** The synthetic generator *)

Module DroneStateFacts.
Import Py DroneState.
#[local] Open Scope float_scope.

Lemma holds_below_spec f k :
  holds_below f k = true -> forall n, (0 <= n < Z.of_nat k)%Z -> f n = true.
Proof.
  induction k as [|k IH]; intros Hk n Hn; [lia|].
  cbn [holds_below] in Hk. apply andb_prop in Hk as [Hhd Htl].
  destruct (Z.eq_dec n (Z.of_nat k)) as [->|Hne]; [exact Hhd|].
  apply IH; [exact Htl | lia].
Qed.

Lemma battery_test_below_3000 : holds_below battery_test 3000 = true.
Proof. vm_compute. reflexivity. Qed.

(** The counter after [k] requests. *)
Lemma serving_after t0 k :
  Nat.iter k count_request (__init__ t0) = serving t0 (Z.of_nat k).
Proof.
  induction k as [|k IH]; [reflexivity|].
  change (Nat.iter (S k) count_request (__init__ t0))
    with (count_request (Nat.iter k count_request (__init__ t0))).
  rewrite IH. unfold count_request, serving. cbn. f_equal. lia.
Qed.

(** The voltage does not depend on the creation time. *)
Lemma voltage_serving t0 n : voltage (serving t0 n) = voltage (serving 0 n).
Proof. reflexivity. Qed.

(** From the 3000th request on the computed voltage is the floor. *)
Lemma voltage_floor t0 n : (3000 <= n)%Z -> voltage (serving t0 n) = 14.0.
Proof.
  intros Hn. unfold voltage, PyFloat.max, PyFloat.of_int. cbn [initial_battery battery_drain_rate request_count serving].
  rewrite (FloatOrder.floor_reached n Hn). reflexivity.
Qed.

Lemma battery_test_all n : (0 <= n)%Z -> battery_test n = true.
Proof.
  intros Hn. destruct (Z.lt_ge_cases n 3000) as [Hlt|Hge].
  - apply (holds_below_spec _ 3000 battery_test_below_3000). lia.
  - unfold battery_test.
    rewrite (voltage_floor 0 n), (voltage_floor 0 (n + 1)) by lia.
    cbn [initial_battery battery_drain_rate serving]. unfold PyFloat.of_int.
    rewrite (FloatOrder.floor_reached n Hge).
    replace (n <? 2800)%Z with false by (symmetry; apply Z.ltb_ge; lia).
    vm_compute. reflexivity.
Qed.


(** The drained value, before the floor is applied. *)
Lemma drained_above_floor n :
  (0 <= n)%Z ->
  (14.0 <? 16.8 - 0.001 * PyFloat.of_int n) = (n <? 2800)%Z.
Proof.
  intros Hn. pose proof (battery_test_all n Hn) as Ht. unfold battery_test in Ht.
  repeat (apply andb_prop in Ht as [Ht _]). apply Bool.eqb_prop in Ht. exact Ht.
Qed.

Lemma voltage_above_floor t0 n :
  (0 <= n)%Z -> (14.0 <? voltage (serving t0 n)) = (n <? 2800)%Z.
Proof.
  intros Hn. rewrite <- (drained_above_floor n Hn). unfold voltage, PyFloat.max.
  cbn [initial_battery battery_drain_rate request_count serving].
  destruct (14.0 <? 16.8 - 0.001 * PyFloat.of_int n) eqn:Hx; [exact Hx | reflexivity].
Qed.

Lemma voltage_at_floor t0 n :
  (0 <= n)%Z -> voltage (serving t0 n) = 14.0 <-> (2800 <= n)%Z.
Proof.
  intros Hn. pose proof (voltage_above_floor t0 n Hn) as Hv. split.
  - intros Heq. rewrite Heq in Hv. apply Z.ltb_ge. rewrite <- Hv. reflexivity.
  - intros Hge. pose proof (drained_above_floor n Hn) as Hx.
    replace (n <? 2800)%Z with false in Hx by (symmetry; apply Z.ltb_ge; lia).
    unfold voltage, PyFloat.max.
    cbn [initial_battery battery_drain_rate request_count serving].
    rewrite Hx. reflexivity.
Qed.

Lemma reported_bounds n :
  (0 <= n)%Z ->
  (14.0 <=? PyFloat.round2 (voltage (serving 0 n))) = true /\
  (PyFloat.round2 (voltage (serving 0 (n + 1))) <=? PyFloat.round2 (voltage (serving 0 n))) = true /\
  exists p, percentage (voltage (serving 0 n)) = Ok p.
Proof.
  intros Hn. pose proof (battery_test_all n Hn) as Ht. unfold battery_test in Ht.
  apply andb_prop in Ht as [Ht H4]. apply andb_prop in Ht as [Ht H3].
  apply andb_prop in Ht as [_ H2].
  split; [exact H3|]. split; [exact H4|].
  destruct (percentage (voltage (serving 0 n))) as [p|e]; [eauto | discriminate].
Qed.

(** What a request returns, as far as the battery goes. *)
Lemma telemetry_of_serving math_sin d t0 n :
  (0 <= n)%Z ->
  exists t,
    telemetry_of math_sin d (serving t0 n) = Ok t /\
    battery_voltage t = PFloat (PyFloat.round2 (voltage (serving 0 n))) /\
    status t = PStr (if (n <? 2800)%Z then "ARMED" else "RTL").
Proof.
  intros Hn. destruct (reported_bounds n Hn) as (_ & _ & p & Hp).
  unfold telemetry_of. change (voltage (serving t0 n)) with (voltage (serving 0 n)).
  rewrite Hp. cbn [mbind result_bind bind].
  eexists. split; [reflexivity|]. cbn [battery_voltage status]. split; [reflexivity|].
  unfold flight_status. rewrite (voltage_above_floor 0 n Hn). reflexivity.
Qed.

Lemma calls_length math_sin ds : forall self,
  length (calls math_sin ds self).2 = length ds.
Proof.
  induction ds as [|d ds IH]; intros self; [reflexivity|].
  cbn [calls get_telemetry]. specialize (IH (count_request self)).
  destruct (calls math_sin ds (count_request self)) as [self2 rs]. cbn in *. lia.
Qed.

Lemma calls_lookup math_sin ds : forall self i d,
  ds !! i = Some d ->
  (calls math_sin ds self).2 !! i
  = Some (telemetry_of math_sin d (Nat.iter (S i) count_request self)).
Proof.
  induction ds as [|d0 ds IH]; intros self i d Hd; [discriminate|].
  cbn [calls get_telemetry]. specialize (IH (count_request self)).
  destruct (calls math_sin ds (count_request self)) as [self2 rs]. cbn [snd] in *.
  destruct i as [|i].
  - cbn in Hd. injection Hd as ->. reflexivity.
  - rewrite (Nat.iter_succ_r (S i)). exact (IH i d Hd).
Qed.

(** C4 (as amended).  Over any sequence of successive calls on a fresh
    generator, every call returns a record whose reported battery voltage is
    at least 14.0 and not above the one reported by the call before it.  The
    voltage computed by a call, before it is rounded for the report, is at
    the floor exactly from the 2800th call on; from that call on, and on
    every later call, the status is RTL, and before it the status is ARMED. *)
Theorem battery_floor_is_one_way math_sin t0 ds i :
  (i < length ds)%nat ->
  let rs := (calls math_sin ds (__init__ t0)).2 in
  exists t v,
    rs !! i = Some (Ok t) /\ battery_voltage t = PFloat v /\
    (14.0 <=? v) = true /\
    (forall t' v', rs !! S i = Some (Ok t') -> battery_voltage t' = PFloat v' ->
                   (v' <=? v) = true) /\
    (voltage (Nat.iter (S i) count_request (__init__ t0)) = 14.0 <-> (2800 <= S i)%nat) /\
    status t = PStr (if (S i <? 2800)%nat then "ARMED" else "RTL") /\
    (forall j t', (i <= j)%nat -> rs !! j = Some (Ok t') ->
                  voltage (Nat.iter (S i) count_request (__init__ t0)) = 14.0 ->
                  status t' = PStr "RTL").
Proof.
  intros Hi rs.
  assert (Hstatus : forall j t', rs !! j = Some (Ok t') ->
            status t' = PStr (if (S j <? 2800)%nat then "ARMED" else "RTL") /\
            battery_voltage t' = PFloat (PyFloat.round2 (voltage (serving 0 (Z.of_nat (S j)))))).
  { intros j t' Hj.
    assert (Hlt : (j < length ds)%nat).
    { rewrite <- (calls_length math_sin ds (__init__ t0)). eapply lookup_lt_Some. exact Hj. }
    destruct (lookup_lt_is_Some_2 ds j Hlt) as [d Hd].
    unfold rs in Hj. rewrite (calls_lookup _ _ _ _ _ Hd), serving_after in Hj.
    destruct (telemetry_of_serving math_sin d t0 (Z.of_nat (S j))) as (t & Ht & Hv & Hs); [lia|].
    rewrite Ht in Hj. injection Hj as <-. split; [|exact Hv].
    rewrite Hs. destruct (Z.ltb_spec (Z.of_nat (S j)) 2800), (Nat.ltb_spec (S j) 2800);
      (reflexivity || lia). }
  assert (Hfloor : voltage (Nat.iter (S i) count_request (__init__ t0)) = 14.0
                   <-> (2800 <= S i)%nat).
  { rewrite serving_after, voltage_at_floor by lia. lia. }
  destruct (lookup_lt_is_Some_2 ds i Hi) as [d Hd].
  destruct (telemetry_of_serving math_sin d t0 (Z.of_nat (S i))) as (t & Ht & Hv & Hs); [lia|].
  assert (Hri : rs !! i = Some (Ok t)).
  { unfold rs. rewrite (calls_lookup _ _ _ _ _ Hd), serving_after. f_equal. exact Ht. }
  destruct (reported_bounds (Z.of_nat (S i))) as (Hge & Hnext & _); [lia|].
  exists t, (PyFloat.round2 (voltage (serving 0 (Z.of_nat (S i))))).
  split; [exact Hri|]. split; [exact Hv|]. split; [exact Hge|]. split; [|split; [exact Hfloor|split]].
  - intros t' v' Hn Hv'. destruct (Hstatus _ _ Hn) as [_ Heq]. rewrite Heq in Hv'.
    injection Hv' as <-. replace (Z.of_nat (S (S i))) with (Z.of_nat (S i) + 1)%Z by lia.
    exact Hnext.
  - exact (proj1 (Hstatus _ _ Hri)).
  - intros j t' Hij Hj Hat. apply Hfloor in Hat. destruct (Hstatus _ _ Hj) as [-> _].
    destruct (Nat.ltb_spec (S j) 2800); [lia | reflexivity].
Qed.

Lemma battery_floor_is_one_way_witness :
  exists t v,
    (calls no_swing [still_air; still_air] (__init__ 0)).2 !! 0%nat = Some (Ok t) /\
    battery_voltage t = PFloat v /\ (14.0 <=? v) = true /\ status t = PStr "ARMED".
Proof.
  destruct (battery_floor_is_one_way no_swing 0 [still_air; still_air] 0)
    as (t & v & H1 & H2 & H3 & _ & _ & H6 & _); [cbn; lia|].
  exists t, v. repeat split; assumption.
Defined.

(** C4, the claim as stated fails: on the 2796th call the reported voltage
    has already reached the floor, 14.0, and the reported status is still
    ARMED. *)
Lemma floor_reported_while_armed :
  exists t,
    (calls no_swing (repeat still_air 2796) (__init__ 0)).2 !! 2795%nat = Some (Ok t) /\
    battery_voltage t = PFloat 14.0 /\ status t = PStr "ARMED".
Proof. vm_compute. eexists. repeat split. Qed.

(** C9.  [reset_simulation] rebinds the generator to a fresh object: its
    battery is at the initial 16.8 V, above the floor, its request counter
    is zero and its time origin is the instant of the reset; the first
    [get_telemetry] after it returns a record with status ARMED. *)
Theorem reset_restores_initial_state math_sin now drone d :
  let drone' := (reset_simulation now drone).1 in
  initial_battery drone' = 16.8 /\
  voltage drone' = 16.8 /\
  (14.0 <? initial_battery drone') = true /\
  request_count drone' = 0%Z /\
  start_time drone' = now /\
  exists t, (get_telemetry math_sin d drone').2 = Ok t /\ status t = PStr "ARMED".
Proof.
  cbn [reset_simulation fst]. repeat (split; [reflexivity|]).
  destruct (telemetry_of_serving math_sin d now 1) as (t & Ht & _ & Hs); [lia|].
  exists t. split; [exact Ht | exact Hs].
Qed.

(** C10 (as amended).  [get_telemetry] increments the request counter
    before it computes the voltage, so the voltage computed on the n-th
    call since creation or reset is [max(14.0, 16.8 - 0.001 * n)], which is
    16.799 on the first call, and the status is taken from that value; the
    record reports it rounded to two decimals, 16.8 on the first call. *)
Theorem voltage_uses_incremented_counter math_sin t0 (k : nat) d :
  let self := Nat.iter k count_request (__init__ t0) in
  let n := (Z.of_nat k + 1)%Z in
  let v := PyFloat.max 14.0 (16.8 - 0.001 * PyFloat.of_int n) in
  request_count (get_telemetry math_sin d self).1 = n /\
  voltage (get_telemetry math_sin d self).1 = v /\
  (exists t, (get_telemetry math_sin d self).2 = Ok t /\
             battery_voltage t = PFloat (PyFloat.round2 v) /\
             status t = PStr (flight_status v)) /\
  PyFloat.max 14.0 (16.8 - 0.001 * PyFloat.of_int 1) = 16.799 /\
  PyFloat.round2 16.799 = 16.8.
Proof.
  intros self n v. unfold self. rewrite serving_after.
  cbn [get_telemetry fst snd].
  change (count_request (serving t0 (Z.of_nat k))) with (serving t0 n).
  split; [reflexivity|]. split; [reflexivity|]. split; [|split; vm_compute; reflexivity].
  destruct (telemetry_of_serving math_sin d t0 n) as (t & Ht & Hv & Hs); [lia|].
  exists t. split; [exact Ht|]. split; [exact Hv|].
  rewrite Hs. unfold flight_status. change v with (voltage (serving t0 n)).
  rewrite voltage_above_floor by lia. reflexivity.
Qed.

(** C10, the claim as stated fails: the first call after creation reports
    16.8, the initial voltage itself, not 16.799. *)
Lemma first_call_reports_initial_voltage :
  exists t,
    (get_telemetry no_swing still_air (__init__ 0)).2 = Ok t /\
    battery_voltage t = PFloat (initial_battery (__init__ 0)) /\
    battery_voltage t <> PFloat 16.799.
Proof.
  eexists. split; [vm_compute; reflexivity|]. split; [vm_compute; reflexivity|].
  intros H.
  apply (f_equal (fun v => match v with PFloat x => PrimFloat.eqb x 16.799 | _ => false end)) in H.
  vm_compute in H. discriminate.
Qed.

End DroneStateFacts.

(** ** The snapshot bridge *)

Module DJIDroneFacts.
Import Py DJIDrone.
#[local] Open Scope float_scope.





End DJIDroneFacts.

(** ** The streaming ingestor *)

Module MAVLinkDroneFacts.
Import Py MAVLinkDrone.
#[local] Open Scope float_scope.

Section Facts.
Variable mode_string_v10 : message -> string.
#[local] Abbreviation assignments := (assignments mode_string_v10).
#[local] Abbreviation _process_message := (_process_message mode_string_v10).
#[local] Abbreviation loop_body := (loop_body mode_string_v10).
#[local] Abbreviation handled := (handled mode_string_v10).

(** *** The frame of an update *)

Lemma assigned_keys msg : (assignments msg).*1 = owned_by_spec msg.
Proof. destruct msg; reflexivity. Qed.

Lemma foldl_assign_other (kvs : list (string * pyval)) : forall lt k,
  k ∉ kvs.*1 -> foldl assign lt kvs !! k = lt !! k.
Proof.
  induction kvs as [|[k' v] kvs IH]; intros lt k Hk; [reflexivity|].
  cbn [foldl]. rewrite IH by (intros Hin; apply Hk; cbn; right; exact Hin).
  unfold assign. cbn [fst snd]. apply lookup_insert_ne.
  intros ->. apply Hk. cbn. left.
Qed.

Lemma process_message_other msg lt k :
  k ∉ owned_by_spec msg -> _process_message msg lt !! k = lt !! k.
Proof.
  intros Hk. unfold MAVLinkDrone._process_message.
  apply foldl_assign_other. rewrite assigned_keys. exact Hk.
Qed.

(** Whatever the dictionary holds under a key was assigned by one of the
    assignments run so far. *)
Lemma foldl_assign_lookup (kvs : list (string * pyval)) : forall lt k v,
  foldl assign lt kvs !! k = Some v -> lt !! k = Some v \/ (k, v) ∈ kvs.
Proof.
  induction kvs as [|[k' v'] kvs IH]; intros lt k v Hv; [left; exact Hv|].
  cbn [foldl] in Hv. apply IH in Hv as [Hv|Hv].
  - unfold assign in Hv. cbn [fst snd] in Hv.
    destruct (decide (k' = k)) as [->|Hne].
    + rewrite lookup_insert_eq in Hv. injection Hv as ->. right. left.
    + rewrite lookup_insert_ne in Hv by exact Hne. left. exact Hv.
  - right. right. exact Hv.
Qed.

(** *** Well-typed dictionaries *)

Lemma assignments_typed msg k v :
  (k, v) ∈ assignments msg -> k ∈ rounded_keys -> exists f, v = PFloat f.
Proof.
  intros Hin Hk. unfold rounded_keys in Hk.
  destruct msg; cbn [MAVLinkDrone.assignments] in Hin;
    repeat (apply elem_of_cons in Hin as [Hin|Hin];
            [injection Hin as -> ->; eauto;
             exfalso; repeat (apply elem_of_cons in Hk as [Hk|Hk]; [discriminate|]);
             apply elem_of_nil in Hk; exact Hk |]);
    apply elem_of_nil in Hin; destruct Hin.
Qed.

Lemma floats_where_rounded_empty : floats_where_rounded ∅.
Proof. intros k v _ Hv. rewrite lookup_empty in Hv. discriminate. Qed.

Lemma process_message_typed msg lt :
  floats_where_rounded lt -> floats_where_rounded (_process_message msg lt).
Proof.
  intros Hlt k v Hk Hv. unfold MAVLinkDrone._process_message in Hv.
  apply foldl_assign_lookup in Hv as [Hv|Hv].
  - exact (Hlt k v Hk Hv).
  - exact (assignments_typed msg k v Hv Hk).
Qed.

Lemma loop_body_typed r lt :
  floats_where_rounded lt -> floats_where_rounded (loop_body r lt).
Proof. destruct r; cbn; [apply process_message_typed | auto | auto]. Qed.

Lemma handled_typed outcomes : floats_where_rounded (handled outcomes).
Proof.
  unfold MAVLinkDrone.handled.
  assert (H : forall lt, floats_where_rounded lt ->
              floats_where_rounded (foldl (fun lt r => loop_body r lt) lt outcomes)).
  { induction outcomes as [|r rs IH]; intros lt Hlt; [exact Hlt|].
    cbn [foldl]. apply IH, loop_body_typed, Hlt. }
  apply H, floats_where_rounded_empty.
Qed.

(** *** Leaving the loop *)

(** Once [self.running] is false the thread is finished within two steps,
    of which at most one is the return of a [recv_match]. *)
Lemma join_finishes r self pc :
  running self = false -> (join mode_string_v10 r self pc).2 = Finished.
Proof.
  intros Hr. unfold join, thread_steps. destruct pc; cbn; rewrite ?Hr; reflexivity.
Qed.

(** [connect] starts the thread on the dictionary as it was. *)
Lemma connect_starts_thread self :
  exists s, connect true self = Ok s /\ running s = true /\
            thread s = Some AtLoopHead /\ latest_telemetry s = latest_telemetry self /\
            thread_step mode_string_v10 TimedOut s AtLoopHead = (s, InRecv).
Proof. eexists. repeat split. Qed.

(** *** Snapshots *)

Lemma lt_get_rounded lt k :
  floats_where_rounded lt -> k ∈ rounded_keys ->
  exists f, lt_get lt (k, PFloat 0) = PFloat f.
Proof.
  intros Hlt Hk. unfold lt_get. cbn [fst snd].
  destruct (lt !! k) as [v|] eqn:Hv; cbn [default]; [|eauto].
  exact (Hlt k v Hk Hv).
Qed.

(** When the four entries it rounds are floats, [get_telemetry] returns
    the display over the entries read. *)
Lemma get_telemetry_of_reads now lt r p y s :
  lt_get lt ("roll", PFloat 0) = PFloat r ->
  lt_get lt ("pitch", PFloat 0) = PFloat p ->
  lt_get lt ("yaw", PFloat 0) = PFloat y ->
  lt_get lt ("ground_speed", PFloat 0) = PFloat s ->
  get_telemetry now lt =
    Ok {| timestamp := PFloat now;
          altitude := lt_get lt ("altitude", PFloat 0);
          battery_voltage := lt_get lt ("battery_voltage", PFloat 0);
          status := PStr (if truthy (lt_get lt ("armed", PBool false))
                          then "ARMED" else "DISARMED");
          attitude := {| roll := PFloat (PyFloat.round2 r);
                         pitch := PFloat (PyFloat.round2 p);
                         yaw := PFloat (PyFloat.round2 y) |};
          gps := {| satellites := lt_get lt ("gps_satellites", PInt 0);
                    latitude := lt_get lt ("latitude", PFloat 0);
                    longitude := lt_get lt ("longitude", PFloat 0);
                    gps_altitude := lt_get lt ("altitude", PFloat 0) |};
          signal_strength := PInt 100;
          ground_speed := PFloat (PyFloat.round2 s);
          armed := lt_get lt ("armed", PBool false);
          flight_mode := lt_get lt ("flight_mode", PStr "UNKNOWN") |}.
Proof.
  intros Hr Hp Hy Hs. unfold get_telemetry, reads. cbn [fmap list_fmap assemble].
  rewrite Hr, Hp, Hy, Hs. reflexivity.
Qed.

Lemma get_telemetry_typed now lt :
  floats_where_rounded lt ->
  exists t, get_telemetry now lt = Ok t /\
    altitude t = lt_get lt ("altitude", PFloat 0) /\
    gps_altitude (gps t) = lt_get lt ("altitude", PFloat 0) /\
    latitude (gps t) = lt_get lt ("latitude", PFloat 0) /\
    longitude (gps t) = lt_get lt ("longitude", PFloat 0) /\
    status t = PStr (if truthy (lt_get lt ("armed", PBool false))
                     then "ARMED" else "DISARMED") /\
    signal_strength t = PInt 100.
Proof.
  intros Hlt.
  destruct (lt_get_rounded lt "roll" Hlt) as [r Hr]; [set_solver|].
  destruct (lt_get_rounded lt "pitch" Hlt) as [p Hp]; [set_solver|].
  destruct (lt_get_rounded lt "yaw" Hlt) as [y Hy]; [set_solver|].
  destruct (lt_get_rounded lt "ground_speed" Hlt) as [s Hs]; [set_solver|].
  eexists. split; [exact (get_telemetry_of_reads now lt r p y s Hr Hp Hy Hs)|].
  repeat split.
Qed.


(** C8.  [_process_message] leaves every entry outside the fields its
    message kind owns as it was; the keys it assigns are exactly the
    owned ones (attitude: roll, pitch, yaw; global position: altitude,
    latitude, longitude; flight data: ground speed, absolute altitude;
    system status: battery voltage, battery remaining; GPS raw:
    satellites, fix type; heartbeat: armed, flight mode); a message of any
    other kind changes nothing at all. *)
Theorem process_message_frame msg lt k :
  k ∉ owned_by_spec msg ->
  _process_message msg lt !! k = lt !! k /\
  (assignments msg).*1 = owned_by_spec msg /\
  (forall msg_type, _process_message (OTHER msg_type) lt = lt).
Proof.
  intros Hk. split; [exact (process_message_other msg lt k Hk)|].
  split; [apply assigned_keys | reflexivity].
Qed.

(** C7.  A GLOBAL_POSITION_INT message stores its relative altitude
    divided by 1000 (millimetres to metres) and its latitude and
    longitude divided by 1e7 (scaled integers to degrees); after such a
    message with [relative_alt = 12500] a snapshot reports the altitude
    12.5. *)
Theorem position_in_metres_and_degrees relative_alt lat lon lt now outcomes :
  _process_message (GLOBAL_POSITION_INT relative_alt lat lon) lt
  = <["longitude" := PFloat (PyFloat.of_int lon / 1e7)]>
      (<["latitude" := PFloat (PyFloat.of_int lat / 1e7)]>
        (<["altitude" := PFloat (PyFloat.of_int relative_alt / 1000)]> lt)) /\
  exists t,
    get_telemetry now (_process_message (GLOBAL_POSITION_INT 12500 lat lon) (handled outcomes))
    = Ok t /\
    altitude t = PFloat 12.5 /\ gps_altitude (gps t) = PFloat 12.5.
Proof.
  split; [reflexivity|].
  destruct (get_telemetry_typed now
              (_process_message (GLOBAL_POSITION_INT 12500 lat lon) (handled outcomes)))
    as (t & Ht & Ha & Hg & _); [apply process_message_typed, handled_typed|].
  exists t. split; [exact Ht|].
  assert (Hread : lt_get (_process_message (GLOBAL_POSITION_INT 12500 lat lon) (handled outcomes))
                    ("altitude", PFloat 0) = PFloat 12.5).
  { unfold lt_get, MAVLinkDrone._process_message. cbn [MAVLinkDrone.assignments foldl].
    unfold assign. cbn [fst snd].
    rewrite lookup_insert_ne by discriminate. rewrite lookup_insert_ne by discriminate.
    rewrite lookup_insert_eq. vm_compute. reflexivity. }
  rewrite Ha, Hg, Hread. split; reflexivity.
Qed.

(** C6 (as amended).  An ATTITUDE message stores roll, pitch and yaw each
    multiplied by the constant 57.2958, which is 180/pi to six
    significant digits (it differs from 180/pi by less than 0.000021);
    after such a message with roll 1.0 rad a snapshot, which rounds the
    angle to two decimals, reports the roll 57.3, within 0.01 of 57.30. *)
Theorem attitude_in_degrees roll pitch yaw lt now outcomes :
  _process_message (ATTITUDE roll pitch yaw) lt
  = <["yaw" := PFloat (yaw * 57.2958)]>
      (<["pitch" := PFloat (pitch * 57.2958)]>
        (<["roll" := PFloat (roll * 57.2958)]> lt)) /\
  (abs (57.2958 - 180 / math_pi) <? 0.000021) = true /\
  exists t,
    get_telemetry now (_process_message (ATTITUDE 1 pitch yaw) (handled outcomes)) = Ok t /\
    Py.roll (attitude t) = PFloat 57.3 /\
    (abs (57.3 - 57.30) <? 0.01) = true.
Proof.
  split; [reflexivity|]. split; [vm_compute; reflexivity|].
  set (lt' := _process_message (ATTITUDE 1 pitch yaw) (handled outcomes)).
  assert (Hlt : floats_where_rounded lt') by apply process_message_typed, handled_typed.
  assert (Hr : lt_get lt' ("roll", PFloat 0) = PFloat (1 * 57.2958)).
  { unfold lt', lt_get, MAVLinkDrone._process_message.
    cbn [MAVLinkDrone.assignments foldl]. unfold assign. cbn [fst snd].
    rewrite lookup_insert_ne by discriminate. rewrite lookup_insert_ne by discriminate.
    rewrite lookup_insert_eq. reflexivity. }
  destruct (lt_get_rounded lt' "pitch" Hlt) as [p Hp]; [set_solver|].
  destruct (lt_get_rounded lt' "yaw" Hlt) as [y Hy]; [set_solver|].
  destruct (lt_get_rounded lt' "ground_speed" Hlt) as [s Hs]; [set_solver|].
  eexists. split; [exact (get_telemetry_of_reads now lt' _ p y s Hr Hp Hy Hs)|].
  cbn [attitude Py.roll]. split; [f_equal|]; vm_compute; reflexivity.
Qed.

(** C5 (as amended).  When [disconnect] is called while the dictionary is
    still empty and the pending [recv_match], if any, returns without a
    message, the background thread is finished when [disconnect] returns,
    having taken at most that one return of [recv_match]; the dictionary
    is still empty and [get_telemetry] then returns the record with every
    entry read from the dictionary at its default (zeros, false,
    "UNKNOWN"), status "DISARMED", signal strength 100 and the time of
    the call. *)
Theorem disconnect_before_any_message self r now :
  latest_telemetry self = ∅ ->
  (forall msg, r <> Received msg) ->
  let self' := disconnect mode_string_v10 r self in
  running self' = false /\
  thread self' = (fun _ => Finished) <$> thread self /\
  latest_telemetry self' = ∅ /\
  get_telemetry now (latest_telemetry self') =
    Ok {| timestamp := PFloat now;
          altitude := PFloat 0;
          battery_voltage := PFloat 0;
          status := PStr "DISARMED";
          attitude := {| Py.roll := PFloat 0; Py.pitch := PFloat 0; Py.yaw := PFloat 0 |};
          gps := {| satellites := PInt 0; latitude := PFloat 0;
                    longitude := PFloat 0; gps_altitude := PFloat 0 |};
          signal_strength := PInt 100;
          ground_speed := PFloat 0;
          armed := PBool false;
          flight_mode := PStr "UNKNOWN" |}.
Proof.
  intros Hempty Hr self'.
  assert (Hquiet : MAVLinkDrone.loop_body mode_string_v10 r ∅ = ∅).
  { destruct r as [msg| |]; [destruct (Hr msg eq_refl) | reflexivity | reflexivity]. }
  assert (Hstore : latest_telemetry self' = ∅).
  { unfold self', disconnect, join, thread_steps. cbn [running thread].
    destruct (thread self) as [[| |]|]; cbn; rewrite ?Hempty, ?Hquiet; reflexivity. }
  split; [|split; [|split; [exact Hstore|]]].
  - unfold self', disconnect, join, thread_steps. cbn [running thread].
    destruct (thread self) as [[| |]|]; reflexivity.
  - unfold self', disconnect, join, thread_steps. cbn [running thread].
    destruct (thread self) as [[| |]|]; reflexivity.
  - rewrite Hstore. vm_compute. reflexivity.
Qed.

(** *** Interleaved reads *)

Lemma step_consistent writes a c : consistent writes c -> consistent writes (step a c).
Proof.
  intros [Hs Hp (done & Hd & Hf)]. destruct a; unfold step.
  - destruct (pending c) as [|[k v] rest] eqn:Hpc; [split; eauto; rewrite Hpc; exact Hp|].
    split; cbn [shared pending to_read seen].
    + intros k' v' Hv. unfold assign in Hv. cbn [fst snd] in Hv.
      destruct (decide (k = k')) as [->|Hne].
      * rewrite lookup_insert_eq in Hv. injection Hv as <-. apply Hp. left.
      * rewrite lookup_insert_ne in Hv by exact Hne. exact (Hs k' v' Hv).
    + intros kv Hkv. apply Hp. right. exact Hkv.
    + eauto.
  - destruct (to_read c) as [|kd rest] eqn:Htr; [split; eauto; rewrite Htr; eauto|].
    split; cbn [shared pending to_read seen]; [exact Hs | exact Hp |].
    exists (done ++ [kd]). split; [rewrite <- app_assoc; exact Hd|].
    apply Forall2_app; [exact Hf|]. constructor; [|constructor].
    unfold from_writes, lt_get. destruct (shared c !! kd.1) as [v|] eqn:Hv; cbn [default].
    + right. exact (Hs _ _ Hv).
    + left. reflexivity.
Qed.

Lemma run_consistent writes schedule : forall c,
  consistent writes c -> consistent writes (run schedule c).
Proof.
  unfold run. induction schedule as [|a schedule IH]; intros c Hc; [exact Hc|].
  cbn [foldl]. apply IH, step_consistent, Hc.
Qed.

Lemma start_consistent msgs :
  consistent (concat (assignments <$> msgs)) (start mode_string_v10 ∅ msgs).
Proof.
  split; cbn [start shared pending to_read seen].
  - intros k v Hv. rewrite lookup_empty in Hv. discriminate.
  - auto.
  - exists []. split; [reflexivity | constructor].
Qed.

(** Every assignment comes from one of the messages. *)
Lemma written_by_message msgs k v :
  (k, v) ∈ concat (assignments <$> msgs) ->
  exists msg, msg ∈ msgs /\ (k, v) ∈ assignments msg.
Proof.
  induction msgs as [|msg msgs IH]; cbn [fmap list_fmap concat]; intros Hin.
  - apply elem_of_nil in Hin. destruct Hin.
  - apply elem_of_app in Hin as [Hin|Hin].
    + exists msg. split; [left | exact Hin].
    + destruct (IH Hin) as (msg' & Hmsg & Hkv). exists msg'. split; [right; exact Hmsg | exact Hkv].
Qed.












End Facts.


Lemma process_message_frame_witness :
  _process_message mode_names (ATTITUDE 1 0 0) {["altitude" := PFloat 12.5]} !! "altitude"
  = Some (PFloat 12.5).
Proof.
  rewrite (proj1 (process_message_frame mode_names (ATTITUDE 1 0 0)
                    {["altitude" := PFloat 12.5]} "altitude"
                    ltac:(cbn [owned_by_spec]; rewrite !not_elem_of_cons;
                          repeat split; try discriminate; apply not_elem_of_nil))).
  reflexivity.
Defined.

Lemma disconnect_before_any_message_witness :
  running (disconnect mode_names TimedOut waiting) = false /\
  thread (disconnect mode_names TimedOut waiting) = Some Finished /\
  latest_telemetry (disconnect mode_names TimedOut waiting) = ∅.
Proof.
  destruct (disconnect_before_any_message mode_names waiting TimedOut 0)
    as (Hr & Ht & Hl & _); [reflexivity | discriminate |].
  repeat split; assumption.
Defined.

(** C5, the claim as stated fails: after such a [disconnect] the record of
    [get_telemetry] is not at the defaults of the data model in every
    field; its signal strength is 100, not zero, and its status is
    "DISARMED", neither "UNKNOWN" nor "DISCONNECTED". *)
Lemma empty_dictionary_is_not_all_defaults :
  exists t,
    get_telemetry 0 (latest_telemetry (disconnect mode_names TimedOut waiting)) = Ok t /\
    signal_strength t = PInt 100 /\ signal_strength t <> PInt 0 /\
    status t = PStr "DISARMED" /\ status t <> PStr "UNKNOWN" /\
    status t <> PStr "DISCONNECTED".
Proof.
  eexists. split; [vm_compute; reflexivity|]. cbn [signal_strength status].
  repeat split; discriminate.
Qed.

(** C6, the claim as stated fails: the factor is the constant 57.2958 and
    not 180/pi.  For a roll of 1.0 rad the stored angle is 57.2958, while
    1.0 * 180/pi is 57.29577951308232, more than 0.00002 away; for a roll
    of 0.808 rad the snapshot reports 46.3 where the conversion by 180/pi
    rounds to 46.29. *)
Lemma attitude_factor_is_not_180_over_pi :
  _process_message mode_names (ATTITUDE 1 0 0) ∅ !! "roll" = Some (PFloat 57.2958) /\
  (1 * (180 / math_pi) =? 57.29577951308232) = true /\
  (0.00002 <? abs (57.2958 - 1 * (180 / math_pi))) = true /\
  (exists t, get_telemetry 0 (_process_message mode_names (ATTITUDE 0.808 0 0) ∅) = Ok t /\
             Py.roll (attitude t) = PFloat 46.3) /\
  PyFloat.round2 (0.808 * (180 / math_pi)) = 46.29.
Proof.
  split; [vm_compute; reflexivity|]. split; [vm_compute; reflexivity|].
  split; [vm_compute; reflexivity|]. split; [|vm_compute; reflexivity].
  eexists. split; vm_compute; reflexivity.
Qed.




End MAVLinkDroneFacts.

(** ** The provider contract *)

Module ProviderContract.
Import Py.
#[local] Open Scope float_scope.



End ProviderContract.

(** ** Ranges that survive rounding

    The fields of the synthetic generator that are sums, products and
    remainders of bounded quantities stay within their bounds once rounded
    to two decimals.  The two-decimal floats of a range are finitely many
    and are tested one by one. *)

Module FloatRange.
Import Binary64 FloatOrder.

Lemma valid_canonical s m e :
  SpecFloat.valid_binary prec emax (S754_finite s m e) = true -> canonical m e /\ e <= 971.
Proof.
  cbn [valid_binary]. unfold bounded, canonical_mantissa. fold (dg m).
  intros H. apply andb_prop in H as [H1 H2]. apply Z.eqb_eq in H1. apply Z.leb_le in H2.
  change (emax - prec) with 971 in H2. split; assumption.
Qed.

Lemma prim_canonical x s m e : Prim2SF x = S754_finite s m e -> canonical m e /\ e <= 971.
Proof. intros Hx. apply (valid_canonical s). rewrite <- Hx. apply Prim2SF_valid. Qed.

Lemma within_valid lo hi x : within lo hi x -> SpecFloat.valid_binary prec emax x = true.
Proof.
  intros [s _|m e Hc He _]; [reflexivity|]. cbn [valid_binary]. unfold bounded, canonical_mantissa.
  fold (dg m). rewrite Hc, Z.eqb_refl. cbn [andb]. apply Z.leb_le. exact He.
Qed.

Lemma scaled_pos m e : -1200 <= e -> 0 < scaled (Zpos m) e.
Proof. intros He. unfold scaled. apply Z.mul_pos_pos; [lia|]. apply Z.pow_pos_nonneg; lia. Qed.

(** On canonical negative floats the comparison is that of the magnitudes,
    reversed. *)
Lemma compare_canonical_neg m1 e1 m2 e2 :
  canonical m1 e1 -> canonical m2 e2 ->
  SFcompare (S754_finite true m1 e1) (S754_finite true m2 e2)
  = Some (scaled (Zpos m2) e2 ?= scaled (Zpos m1) e1).
Proof.
  intros H1 H2. cbn [SFcompare].
  destruct (canonical_bounds _ _ H1) as (He1 & Hm1 & Hn1).
  destruct (canonical_bounds _ _ H2) as (He2 & Hm2 & Hn2).
  f_equal. destruct (Z.compare_spec e1 e2) as [Heq|Hlt|Hgt].
  - subst e2. change (Pos.compare_cont Eq m1 m2) with (Zpos m1 ?= Zpos m2).
    unfold scaled. assert (0 < 2 ^ (e1 + 1200)) by (apply Z.pow_pos_nonneg; lia).
    destruct (Z.compare_spec (Zpos m1) (Zpos m2)); cbn [CompOpp]; symmetry;
      [apply Z.compare_eq_iff | apply Z.compare_gt_iff | apply Z.compare_lt_iff]; nia.
  - symmetry. apply Z.compare_gt_iff. apply scaled_lt_next; lia.
  - symmetry. apply Z.compare_lt_iff. apply scaled_lt_next; lia.
Qed.

(** A float between two positive floats. *)
Lemma leb_within x ml el mh eh :
  SpecFloat.valid_binary prec emax x = true ->
  canonical ml el -> canonical mh eh ->
  SFleb (S754_finite false ml el) x = true ->
  SFleb x (S754_finite false mh eh) = true ->
  within (scaled (Zpos ml) el) (scaled (Zpos mh) eh) x.
Proof.
  intros Hv Hl Hh H1 H2. destruct x as [s|s| |s m e]; try discriminate.
  - destruct s; discriminate.
  - destruct s; [discriminate|]. destruct (valid_canonical _ _ _ Hv) as [Hc He].
    unfold SFleb in H1, H2.
    rewrite (compare_canonical _ _ _ _ Hl Hc) in H1.
    rewrite (compare_canonical _ _ _ _ Hc Hh) in H2.
    apply within_finite; [assumption | assumption |]. split.
    + destruct (Z.compare_spec (scaled (Zpos ml) el) (scaled (Zpos m) e)); [lia | lia | discriminate].
    + destruct (Z.compare_spec (scaled (Zpos m) e) (scaled (Zpos mh) eh)); [lia | lia | discriminate].
Qed.

(** A float between a negative float and its opposite. *)
Lemma leb_magnitude x m0 e0 :
  SpecFloat.valid_binary prec emax x = true ->
  canonical m0 e0 ->
  SFleb (S754_finite true m0 e0) x = true ->
  SFleb x (S754_finite false m0 e0) = true ->
  magnitude (scaled (Zpos m0) e0) x.
Proof.
  intros Hv H0 H1 H2. destruct x as [s|s| |s m e]; try discriminate.
  - apply magnitude_zero.
  - destruct s; discriminate.
  - destruct (valid_canonical _ _ _ Hv) as [Hc He].
    apply magnitude_finite; [assumption | assumption |].
    unfold SFleb in H1, H2. destruct s.
    + rewrite (compare_canonical_neg _ _ _ _ H0 Hc) in H1.
      destruct (Z.compare_spec (scaled (Zpos m) e) (scaled (Zpos m0) e0)); [lia | lia | discriminate].
    + rewrite (compare_canonical _ _ _ _ Hc H0) in H2.
      destruct (Z.compare_spec (scaled (Zpos m) e) (scaled (Zpos m0) e0)); [lia | lia | discriminate].
Qed.

(** Rounding a quantity that is at most a float, whatever its sign. *)
Lemma round_aux_magnitude s p e m0 e0 :
  -1200 <= e -> e <= fexp prec emax (dg p + e) ->
  canonical m0 e0 -> e0 <= 971 -> scaled (Zpos p) e <= scaled (Zpos m0) e0 ->
  magnitude (scaled (Zpos m0) e0) (binary_round_aux prec emax s (Zpos p) e loc_Exact).
Proof.
  intros He HE Hc He0 Hle. destruct (canonical_bounds _ _ Hc) as (Hmin & Hm0 & _).
  pose proof (grid_upper p e He HE m0 e0 Hc Hle) as Hhi.
  destruct (round_aux_rounded s p e He HE) as [H0 | m e' Hcm Hem Hb | m e' Hcm Hem Hb].
  - apply magnitude_zero.
  - apply magnitude_finite; [assumption | assumption | lia].
  - exfalso. destruct (canonical_bounds _ _ Hcm) as (_ & _ & Hm).
    assert (scaled (Zpos m0) e0 < scaled (Zpos m) e') by (apply scaled_lt_next; lia).
    lia.
Qed.

(** Rounding a positive quantity that lies between two floats. *)
Lemma binary_round_within p e ml el mh eh :
  -1200 <= e -> canonical ml el -> canonical mh eh -> eh <= 971 ->
  scaled (Zpos ml) el <= scaled (Zpos p) e <= scaled (Zpos mh) eh ->
  within (scaled (Zpos ml) el) (scaled (Zpos mh) eh) (binary_round prec emax false p e).
Proof.
  intros He Hl Hh Heh [Hlo Hhi].
  pose proof (binary_round_at_least p e ml el He Hl Hlo) as H1.
  pose proof (binary_round_at_most p e mh eh He Hh Heh Hhi) as H2.
  destruct (canonical_bounds _ _ Hl) as (Hel & _ & _).
  pose proof (scaled_pos ml el ltac:(lia)) as Hpos.
  destruct H1 as [|m e' Hc He' Hge].
  - inversion H2.
  - inversion H2 as [| | |m' e'' Hc' He'' Hle]; subst.
    apply within_finite; [assumption | assumption | lia].
Qed.

(** Rounding a positive quantity that is at most a float. *)
Lemma binary_round_upto p e mh eh :
  -1200 <= e -> canonical mh eh -> eh <= 971 ->
  scaled (Zpos p) e <= scaled (Zpos mh) eh ->
  within 0 (scaled (Zpos mh) eh) (binary_round prec emax false p e).
Proof.
  intros He Hh Heh Hhi.
  destruct (binary_round_aligned false p e He) as (mz & ez & -> & H1 & H2 & H3).
  destruct (canonical_bounds _ _ Hh) as (Hmin & Hm0 & _).
  pose proof (grid_upper mz ez H1 H2 mh eh Hh ltac:(lia)) as Hup.
  destruct (round_aux_rounded false mz ez H1 H2) as [H0 | m e' Hcm Hem Hb | m e' Hcm Hem Hb].
  - apply within_zero. lia.
  - destruct (canonical_bounds _ _ Hcm) as (Hem' & _ & _).
    pose proof (scaled_pos m e' ltac:(lia)).
    apply within_finite; [assumption | assumption | lia].
  - exfalso. destruct (canonical_bounds _ _ Hcm) as (_ & _ & Hm).
    assert (scaled (Zpos mh) eh < scaled (Zpos m) e') by (apply scaled_lt_next; lia).
    lia.
Qed.

(** *** Two decimals *)

Lemma div_half_even_bounds a b lo hi :
  0 < b -> lo * b <= a <= hi * b ->
  lo <= PyFloat.div_half_even a b <= hi.
Proof.
  intros Hb [Hlo Hhi]. unfold PyFloat.div_half_even.
  pose proof (Z.div_mod a b ltac:(lia)) as Hdm.
  pose proof (Z.mod_pos_bound a b Hb) as Hmod.
  assert (Hq1 : lo <= a / b) by (apply Z.div_le_lower_bound; lia).
  assert (Hq2 : a / b <= hi) by (apply Z.div_le_upper_bound; lia).
  assert (Hstrict : a mod b <> 0 -> a / b + 1 <= hi) by nia.
  destruct (Z.compare_spec (2 * (a mod b)) b) as [Heq|Hlt|Hgt].
  - destruct (Z.even (a / b)); [lia|]. split; [lia|]. apply Hstrict. lia.
  - lia.
  - split; [lia|]. apply Hstrict. lia.
Qed.

Lemma cents_bounds m e lo hi :
  -1200 <= e ->
  lo * 2 ^ 1200 <= 100 * scaled (Zpos m) e <= hi * 2 ^ 1200 ->
  lo <= cents m e <= hi.
Proof.
  intros He [Hlo Hhi]. unfold cents, scaled in *.
  destruct (Z.leb_spec 0 e) as [Hpos|Hneg].
  - rewrite (Z.pow_add_r 2 e 1200) in Hlo, Hhi by lia.
    assert (HB : 0 < 2 ^ 1200) by (apply Z.pow_pos_nonneg; lia).
    assert (HA : 0 < 2 ^ e) by (apply Z.pow_pos_nonneg; lia).
    set (A := 2 ^ e) in *. set (B := 2 ^ 1200) in *. clearbody A B.
    split; apply (Z.mul_le_mono_pos_r _ _ B HB); lia.
  - apply div_half_even_bounds; [apply Z.pow_pos_nonneg; lia|].
    assert (Hsplit : 2 ^ 1200 = 2 ^ (- e) * 2 ^ (e + 1200)).
    { rewrite <- Z.pow_add_r by lia. f_equal. lia. }
    rewrite Hsplit in Hlo, Hhi.
    assert (HB : 0 < 2 ^ (e + 1200)) by (apply Z.pow_pos_nonneg; lia).
    assert (HA : 0 < 2 ^ (- e)) by (apply Z.pow_pos_nonneg; lia).
    set (A := 2 ^ (- e)) in *. set (B := 2 ^ (e + 1200)) in *. clearbody A B.
    split; apply (Z.mul_le_mono_pos_r _ _ B HB); lia.
Qed.

Lemma round2_of_cents x m e :
  Prim2SF x = S754_finite false m e -> PyFloat.round2 x = of_cents (cents m e).
Proof.
  intros Hx. unfold PyFloat.round2, of_cents, cents. rewrite Hx.
  destruct (if 0 <=? e then _ else _); reflexivity.
Qed.


Lemma compare_zero_sign a s :
  SFcompare a (S754_zero s) = SFcompare a (S754_zero false) /\
  SFcompare (S754_zero s) a = SFcompare (S754_zero false) a.
Proof. destruct a as [s'|s'| |s' m e]; destruct s; split; reflexivity. Qed.

(** [round(x, 2)] of a float in a range whose hundredths, [first] to
    [last], all give floats between [flo] and [fhi]. *)
Lemma round2_within lo hi first last flo fhi x :
  within lo hi (Prim2SF x) ->
  first * 2 ^ 1200 <= 100 * lo -> 100 * hi <= last * 2 ^ 1200 ->
  (lo <= 0 -> (flo <=? 0)%float = true /\ (0 <=? fhi)%float = true) ->
  (forall h, first <= h <= last -> cents_between flo fhi 0 h = true) ->
  (flo <=? PyFloat.round2 x)%float = true /\ (PyFloat.round2 x <=? fhi)%float = true.
Proof.
  intros Hw Hlo Hhi Hzero Htest.
  inversion Hw as [s Hl Hx | m e Hc He Hb Hx]; symmetry in Hx.
  - destruct (Hzero Hl) as [H1 H2]. unfold PyFloat.round2. rewrite Hx.
    rewrite leb_spec in H1, H2 |- *. rewrite leb_spec. rewrite Hx.
    change (Prim2SF 0) with (S754_zero false) in H1, H2. unfold SFleb in *.
    destruct (compare_zero_sign (Prim2SF flo) s) as [-> _].
    destruct (compare_zero_sign (Prim2SF fhi) s) as [_ ->]. split; assumption.
  - rewrite (round2_of_cents x m e Hx).
    destruct (canonical_bounds _ _ Hc) as (Hmin & _ & _).
    assert (Hcents : first <= cents m e <= last).
    { apply cents_bounds; [lia|]. split; [lia|].
      apply Z.le_trans with (100 * hi); [lia | exact Hhi]. }
    pose proof (Htest _ Hcents) as Ht. unfold cents_between in Ht.
    change (0 + cents m e) with (cents m e) in Ht.
    apply andb_prop in Ht. exact Ht.
Qed.

(** A test run over [first .. first + count - 1]. *)
Lemma tested_range flo fhi first count :
  DroneState.holds_below (cents_between flo fhi first) count = true ->
  forall h, first <= h < first + Z.of_nat count -> cents_between flo fhi 0 h = true.
Proof.
  intros Ht h Hh.
  pose proof (DroneStateFacts.holds_below_spec _ _ Ht (h - first) ltac:(lia)) as H.
  unfold cents_between in *. replace (first + (h - first)) with h in H by lia. exact H.
Qed.

(** *** The altitude of the synthetic generator: 50.0 + 5.0 * sin *)

Lemma variance_magnitude y :
  magnitude (2 ^ 1200) y ->
  magnitude (5 * 2 ^ 1200) (SF64mul (S754_finite false 5629499534213120 (-50)) y).
Proof.
  intros [s|s m e Hc He Hle]; [apply magnitude_zero|].
  destruct (canonical_bounds _ _ Hc) as (Hmin & _ & _).
  unfold SF64mul, SFmul. cbn [xorb].
  assert (Hc5 : canonical 5629499534213120 (-50)) by reflexivity.
  assert (Hs5 : scaled (Zpos 5629499534213120) (-50) = 5 * 2 ^ 1200) by (vm_compute; reflexivity).
  rewrite <- Hs5. apply round_aux_magnitude; [lia | | exact Hc5 | lia |].
  - rewrite fexp_eq.
    assert (53 <= dg (5629499534213120 * m)); [|lia].
    apply dg_at_least. change (2 ^ (53 - 1)) with 4503599627370496. lia.
  - rewrite Hs5. unfold scaled in *. rewrite Pos2Z.inj_mul.
    replace (e + 1200) with (50 + (-50 + e + 1200)) in Hle by lia.
    rewrite Z.pow_add_r in Hle by lia. change (2 ^ 50) with 1125899906842624 in Hle.
    hide_pows. nia.
Qed.

Lemma base_plus_within t :
  magnitude (5 * 2 ^ 1200) t ->
  within (45 * 2 ^ 1200) (55 * 2 ^ 1200)
    (SF64add (S754_finite false 7036874417766400 (-47)) t).
Proof.
  assert (Hc50 : canonical 7036874417766400 (-47)) by reflexivity.
  assert (Hs50 : scaled (Zpos 7036874417766400) (-47) = 50 * 2 ^ 1200) by (vm_compute; reflexivity).
  assert (Hc45 : canonical 6333186975989760 (-47)) by reflexivity.
  assert (Hs45 : scaled (Zpos 6333186975989760) (-47) = 45 * 2 ^ 1200) by (vm_compute; reflexivity).
  assert (Hc55 : canonical 7740561859543040 (-47)) by reflexivity.
  assert (Hs55 : scaled (Zpos 7740561859543040) (-47) = 55 * 2 ^ 1200) by (vm_compute; reflexivity).
  assert (Hp : 0 < 2 ^ 1200) by (apply Z.pow_pos_nonneg; lia).
  intros [s|s m e Hc He Hle].
  - cbn [SF64add SFadd]. apply within_finite; [exact Hc50 | lia | rewrite Hs50; lia].
  - destruct (canonical_bounds _ _ Hc) as (Hmin & _ & _).
    unfold SF64add, SFadd. cbn [cond_Zopp].
    set (ez := Z.min (-47) e).
    pose proof (shl_align_spec 7036874417766400 (-47) ez) as Hx.
    pose proof (shl_align_spec m e ez) as Hz.
    destruct (shl_align 7036874417766400 (-47) ez) as [mx' ex'].
    destruct (shl_align m e ez) as [mz' ez']. cbn [fst].
    destruct Hx as [Hex Hmx]. destruct Hz as [Hez Hmz].
    assert (ex' = ez) by lia. assert (ez' = ez) by lia. subst ex' ez'.
    assert (Hez0 : -1200 <= ez) by lia.
    assert (Hsx : scaled (Zpos mx') ez = 50 * 2 ^ 1200).
    { rewrite <- Hs50. rewrite Hmx, <- scaled_shift by lia. f_equal. lia. }
    assert (Hsz : scaled (Zpos mz') ez = scaled (Zpos m) e).
    { rewrite Hmz, <- scaled_shift by lia. f_equal. lia. }
    pose proof (scaled_pos m e ltac:(lia)) as Hmpos.
    assert (Hsum : scaled (Zpos mx' + cond_Zopp s (Zpos mz')) ez
                   = 50 * 2 ^ 1200 + (if s then - scaled (Zpos m) e else scaled (Zpos m) e)).
    { rewrite <- Hsx, <- Hsz. unfold scaled. destruct s; cbn [cond_Zopp]; lia. }
    assert (Hrange : 45 * 2 ^ 1200 <= scaled (Zpos mx' + cond_Zopp s (Zpos mz')) ez <= 55 * 2 ^ 1200).
    { rewrite Hsum. destruct s; lia. }
    clear Hsum Hsx Hsz.
    destruct (Zpos mx' + cond_Zopp s (Zpos mz')) as [|d|d]; cbn [binary_normalize].
    + exfalso. unfold scaled in Hrange. lia.
    + rewrite <- Hs45, <- Hs55. apply binary_round_within; [lia | exact Hc45 | exact Hc55 | lia |].
      rewrite Hs45, Hs55. exact Hrange.
    + exfalso. unfold scaled in Hrange.
      assert (0 < 2 ^ (ez + 1200)) by (apply Z.pow_pos_nonneg; lia). nia.
Qed.

Lemma altitude_tested : DroneState.holds_below (cents_between 45 55 4500) 1001 = true.
Proof. vm_compute. reflexivity. Qed.

Lemma altitude_range s :
  (-1 <=? s)%float = true -> (s <=? 1)%float = true ->
  (45 <=? PyFloat.round2 (50 + 5 * s))%float = true /\
  (PyFloat.round2 (50 + 5 * s) <=? 55)%float = true.
Proof.
  intros H1 H2. rewrite leb_spec in H1, H2.
  assert (Hone : canonical 4503599627370496 (-52)) by reflexivity.
  pose proof (leb_magnitude (Prim2SF s) _ _ (Prim2SF_valid s) Hone H1 H2) as Hs.
  replace (scaled (Zpos 4503599627370496) (-52)) with (2 ^ 1200) in Hs by (vm_compute; reflexivity).
  apply (round2_within (45 * 2 ^ 1200) (55 * 2 ^ 1200) 4500 5500).
  - rewrite add_spec, mul_spec. apply base_plus_within, variance_magnitude, Hs.
  - lia.
  - lia.
  - intros Hneg. exfalso. assert (0 < 2 ^ 1200) by (apply Z.pow_pos_nonneg; lia). lia.
  - intros h Hh. apply (tested_range _ _ 4500 1001 altitude_tested). lia.
Qed.

(** *** The ground speed: a draw from [0.5, 2.5], rounded *)

Lemma speed_tested : DroneState.holds_below (cents_between 0.5 2.5 50) 201 = true.
Proof. vm_compute. reflexivity. Qed.

Lemma speed_range v :
  (0.5 <=? v)%float = true -> (v <=? 2.5)%float = true ->
  (0.5 <=? PyFloat.round2 v)%float = true /\ (PyFloat.round2 v <=? 2.5)%float = true.
Proof.
  intros H1 H2. rewrite leb_spec in H1, H2.
  assert (Hl : canonical 4503599627370496 (-53)) by reflexivity.
  assert (Hh : canonical 5629499534213120 (-51)) by reflexivity.
  pose proof (leb_within (Prim2SF v) _ _ _ _ (Prim2SF_valid v) Hl Hh H1 H2) as Hv.
  assert (Hp : 0 < 2 ^ 1199) by (apply Z.pow_pos_nonneg; lia).
  assert (Hsl : scaled (Zpos 4503599627370496) (-53) = 2 ^ 1199) by (vm_compute; reflexivity).
  assert (Hsh : scaled (Zpos 5629499534213120) (-51) = 5 * 2 ^ 1199) by (vm_compute; reflexivity).
  assert (H2p : 2 ^ 1200 = 2 * 2 ^ 1199) by (vm_compute; reflexivity).
  apply (round2_within _ _ 50 250 _ _ _ Hv).
  - rewrite Hsl, H2p. lia.
  - rewrite Hsh, H2p. lia.
  - rewrite Hsl. lia.
  - intros h Hrange. apply (tested_range _ _ 50 201 speed_tested). lia.
Qed.

(** *** The yaw: the remainder by 360, rounded *)

Lemma finite_cases x :
  is_finite x = true ->
  (exists s, Prim2SF x = S754_zero s) \/ (exists s m e, Prim2SF x = S754_finite s m e).
Proof.
  unfold is_finite, is_nan, is_infinity. rewrite !FloatAxioms.eqb_spec, abs_spec.
  destruct (Prim2SF x) as [s|s| |s m e]; eauto.
  - destruct s; cbn; discriminate.
  - cbn. discriminate.
Qed.

Lemma mod_360_within x :
  is_finite x = true ->
  within 0 (360 * 2 ^ 1200) (Prim2SF (PyFloat.mod_ x 360)).
Proof.
  intros Hx.
  assert (Hc : canonical 6333186975989760 (-44)) by reflexivity.
  assert (Hs : scaled (Zpos 6333186975989760) (-44) = 360 * 2 ^ 1200) by (vm_compute; reflexivity).
  unfold PyFloat.mod_. change (Prim2SF 360) with (S754_finite false 6333186975989760 (-44)).
  destruct (finite_cases x Hx) as [(s & Hsf)|(s & m & e & Hsf)]; rewrite Hsf.
  - rewrite Prim2SF_SF2Prim by reflexivity. apply within_zero. lia.
  - destruct (prim_canonical x s m e Hsf) as [Hcm He].
    destruct (canonical_bounds _ _ Hcm) as (Hmin & _ & _).
    unfold PyFloat.fmod_mag. set (ez := Z.min e (-44)).
    set (Y := 6333186975989760 * 2 ^ (-44 - ez)).
    assert (HY : 0 < Y) by (unfold Y; apply Z.mul_pos_pos; [lia | apply Z.pow_pos_nonneg; lia]).
    pose proof (Z.mod_pos_bound (Zpos m * 2 ^ (e - ez)) Y HY) as Hr.
    set (r := (Zpos m * 2 ^ (e - ez)) mod Y) in *.
    destruct (Z.eqb_spec r 0) as [H0|H0].
    + rewrite Prim2SF_SF2Prim by reflexivity. apply within_zero. lia.
    + set (r' := if Bool.eqb s false then r else Y - r).
      assert (Hr' : 0 < r' <= Y) by (unfold r'; destruct (Bool.eqb s false); lia).
      assert (Hw : within 0 (360 * 2 ^ 1200) (binary_normalize prec emax r' ez false)).
      { destruct r' as [|d|d]; [lia | | lia]. cbn [binary_normalize].
        rewrite <- Hs. apply binary_round_upto; [lia | exact Hc | lia |].
        assert (HsY : scaled (Zpos 6333186975989760) (-44) = scaled Y ez).
        { unfold Y. rewrite <- scaled_shift by lia. f_equal. lia. }
        rewrite HsY. apply scaled_le; lia. }
      rewrite Prim2SF_SF2Prim by (eapply within_valid; exact Hw). exact Hw.
Qed.

Lemma yaw_tested :
  DroneState.holds_below
    (fun j => DroneState.holds_below (cents_between 0 360 (1000 * j)) 1000) 36 = true /\
  cents_between 0 360 0 36000 = true.
Proof. split; vm_compute; reflexivity. Qed.

Lemma yaw_range x :
  is_finite x = true ->
  (0 <=? PyFloat.round2 (PyFloat.mod_ x 360))%float = true /\
  (PyFloat.round2 (PyFloat.mod_ x 360) <=? 360)%float = true.
Proof.
  intros Hx. destruct yaw_tested as [Hblocks Hlast].
  apply (round2_within 0 (360 * 2 ^ 1200) 0 36000 _ _ _ (mod_360_within x Hx)).
  - lia.
  - lia.
  - intros _. split; reflexivity.
  - intros h Hh. destruct (Z.eq_dec h 36000) as [->|Hne]; [exact Hlast|].
    pose proof (DroneStateFacts.holds_below_spec _ _ Hblocks (h / 1000)) as Hb.
    cbv beta in Hb.
    assert (Hq : 0 <= h / 1000 < Z.of_nat 36).
    { split; [apply Z.div_pos; lia | apply Z.div_lt_upper_bound; lia]. }
    apply (tested_range _ _ _ 1000 (Hb Hq)).
    pose proof (Z.div_mod h 1000 ltac:(lia)). pose proof (Z.mod_pos_bound h 1000 ltac:(lia)). lia.
Qed.

End FloatRange.

(** ** The synthetic generator, field by field *)

Module DroneStateFields.
Import Py DroneState DroneStateFacts.
#[local] Open Scope float_scope.

Lemma calls_state math_sin ds : forall self,
  (calls math_sin ds self).1 = Nat.iter (length ds) count_request self.
Proof.
  induction ds as [|d ds IH]; intros self; [reflexivity|].
  cbn [calls get_telemetry length]. specialize (IH (count_request self)).
  destruct (calls math_sin ds (count_request self)) as [self2 rs]. cbn [fst] in *.
  rewrite IH. symmetry. apply Nat.iter_succ_r.
Qed.

Lemma count_requests_frame k : forall self,
  let self' := Nat.iter k count_request self in
  request_count self' = (request_count self + Z.of_nat k)%Z /\
  start_time self' = start_time self /\
  initial_battery self' = initial_battery self /\
  battery_drain_rate self' = battery_drain_rate self /\
  base_altitude self' = base_altitude self /\
  altitude_variance self' = altitude_variance self.
Proof.
  induction k as [|k IH]; intros self; cbn zeta.
  - cbn. repeat split. lia.
  - change (Nat.iter (S k) count_request self) with (count_request (Nat.iter k count_request self)).
    destruct (IH self) as (H1 & H2 & H3 & H4 & H5 & H6).
    cbn [count_request request_count start_time initial_battery battery_drain_rate
         base_altitude altitude_variance].
    repeat split; try assumption. lia.
Qed.

(** X1.  Calls of [get_telemetry] change the request counter and
    nothing else: after any sequence of calls the counter has grown by the
    number of calls, and the creation time, the initial battery, the drain
    rate, the base altitude and the variance are what they were. *)
Theorem calls_only_count math_sin ds self :
  let self' := (calls math_sin ds self).1 in
  request_count self' = (request_count self + Z.of_nat (length ds))%Z /\
  start_time self' = start_time self /\
  initial_battery self' = initial_battery self /\
  battery_drain_rate self' = battery_drain_rate self /\
  base_altitude self' = base_altitude self /\
  altitude_variance self' = altitude_variance self.
Proof.
  cbn zeta. rewrite calls_state. apply count_requests_frame.
Qed.

(** X2.  On a generator freshly created, the record of the call
    number n (counted from 1) has [armed] true and flight mode STABILIZE
    when n < 2800, and [armed] false and flight mode RTL from the 2800th
    call on, as its status has it; its top-level altitude and its GPS
    altitude are the same value. *)
Theorem mode_follows_battery math_sin t0 ds i t :
  (calls math_sin ds (__init__ t0)).2 !! i = Some (Ok t) ->
  armed t = PBool (S i <? 2800)%nat /\
  flight_mode t = PStr (if (S i <? 2800)%nat then "STABILIZE" else "RTL") /\
  status t = PStr (if (S i <? 2800)%nat then "ARMED" else "RTL") /\
  altitude t = gps_altitude (gps t).
Proof.
  intros Hi.
  assert (Hlt : (i < length ds)%nat).
  { rewrite <- (calls_length math_sin ds (__init__ t0)). eapply lookup_lt_Some. exact Hi. }
  destruct (lookup_lt_is_Some_2 ds i Hlt) as [d Hd].
  rewrite (calls_lookup _ _ _ _ _ Hd), serving_after in Hi.
  destruct (reported_bounds (Z.of_nat (S i))) as (_ & _ & p & Hp); [lia|].
  unfold telemetry_of in Hi.
  change (voltage (serving t0 (Z.of_nat (S i)))) with (voltage (serving 0 (Z.of_nat (S i)))) in Hi.
  rewrite Hp in Hi. cbn [mbind result_bind bind] in Hi.
  unfold flight_status in Hi. rewrite (voltage_above_floor 0 (Z.of_nat (S i))) in Hi by lia.
  replace (Z.of_nat (S i) <? 2800)%Z with (S i <? 2800)%nat in Hi
    by (destruct (Z.ltb_spec (Z.of_nat (S i)) 2800), (Nat.ltb_spec (S i) 2800); (reflexivity || lia)).
  injection Hi as <-. cbn [armed flight_mode status altitude gps gps_altitude].
  destruct (S i <? 2800)%nat; repeat split.
Qed.

Lemma mode_follows_battery_witness :
  exists t, (calls no_swing [still_air; still_air] (__init__ 0)).2 !! 1%nat = Some (Ok t) /\
            armed t = PBool true /\ flight_mode t = PStr "STABILIZE".
Proof.
  eexists. split; [vm_compute; reflexivity|].
  destruct (mode_follows_battery no_swing 0 [still_air; still_air] 1 _ eq_refl) as (Ha & Hm & _).
  split; [exact Ha | exact Hm].
Defined.

(** What the call that finds the counter at [k] returns, field by field. *)
Lemma get_telemetry_fields math_sin t0 (k : nat) d :
  exists t,
    (get_telemetry math_sin d (Nat.iter k count_request (__init__ t0))).2 = Ok t /\
    altitude t = PFloat (PyFloat.round2 (50 + 5 * math_sin ((now d - t0) * 0.6))) /\
    gps_altitude (gps t) = altitude t /\
    yaw (attitude t) = PFloat (PyFloat.round2 (PyFloat.mod_ ((now d - t0) * 5) 360)) /\
    ground_speed t = PFloat (PyFloat.round2 (speed d)) /\
    status t = PStr (if (S k <? 2800)%nat then "ARMED" else "RTL") /\
    armed t = PBool (S k <? 2800)%nat /\
    flight_mode t = PStr (if (S k <? 2800)%nat then "STABILIZE" else "RTL") /\
    battery_voltage t = PFloat (PyFloat.round2 (voltage (serving 0 (Z.of_nat (S k))))).
Proof.
  rewrite serving_after. cbn [get_telemetry snd].
  change (count_request (serving t0 (Z.of_nat k))) with (serving t0 (Z.of_nat k + 1)).
  replace (Z.of_nat k + 1)%Z with (Z.of_nat (S k)) by lia.
  destruct (reported_bounds (Z.of_nat (S k))) as (_ & _ & p & Hp); [lia|].
  unfold telemetry_of.
  change (voltage (serving t0 (Z.of_nat (S k)))) with (voltage (serving 0 (Z.of_nat (S k)))).
  rewrite Hp. cbn [mbind result_bind bind].
  unfold flight_status. rewrite (voltage_above_floor 0 (Z.of_nat (S k))) by lia.
  replace (Z.of_nat (S k) <? 2800)%Z with (S k <? 2800)%nat
    by (destruct (Z.ltb_spec (Z.of_nat (S k)) 2800), (Nat.ltb_spec (S k) 2800); (reflexivity || lia)).
  eexists. split; [reflexivity|].
  cbn [altitude gps gps_altitude attitude yaw ground_speed status armed flight_mode
       battery_voltage serving start_time base_altitude altitude_variance].
  destruct (S k <? 2800)%nat; repeat split.
Qed.

(** X3.  When the sine the C library returns lies in [-1, 1], the
    altitude of the record, which is 50.0 + 5.0 * sine rounded to two
    decimals, lies between 45.0 and 55.0, and the GPS altitude is the same
    value. *)
Theorem altitude_stays_in_band math_sin t0 (k : nat) d :
  (-1 <=? math_sin ((now d - t0) * 0.6)) = true ->
  (math_sin ((now d - t0) * 0.6) <=? 1) = true ->
  exists t a,
    (get_telemetry math_sin d (Nat.iter k count_request (__init__ t0))).2 = Ok t /\
    altitude t = PFloat a /\ gps_altitude (gps t) = PFloat a /\
    (45 <=? a) = true /\ (a <=? 55) = true.
Proof.
  intros H1 H2.
  destruct (get_telemetry_fields math_sin t0 k d) as (t & Ht & Ha & Hg & _).
  destruct (FloatRange.altitude_range _ H1 H2) as [Hlo Hhi].
  exists t. eexists. split; [exact Ht|]. split; [exact Ha|]. split; [rewrite Hg; exact Ha|].
  split; assumption.
Qed.

Lemma altitude_stays_in_band_witness :
  exists t a,
    (get_telemetry no_swing still_air (__init__ 0)).2 = Ok t /\
    altitude t = PFloat a /\ (45 <=? a) = true /\ (a <=? 55) = true.
Proof.
  destruct (altitude_stays_in_band no_swing 0 0 still_air eq_refl eq_refl)
    as (t & a & Ht & Ha & _ & Hlo & Hhi).
  exists t, a. repeat split; assumption.
Defined.

(** X4.  When five times the elapsed time is a finite float, the
    yaw of the record lies between 0.0 and 360.0, both included: the
    remainder by 360 is below 360, but rounding it to two decimals can give
    360.0 itself, as it does 71.9995 seconds after creation. *)
Theorem yaw_within_a_turn math_sin t0 (k : nat) d :
  is_finite ((now d - t0) * 5) = true ->
  (exists t y,
     (get_telemetry math_sin d (Nat.iter k count_request (__init__ t0))).2 = Ok t /\
     yaw (attitude t) = PFloat y /\ (0 <=? y) = true /\ (y <=? 360) = true) /\
  (exists t,
     (get_telemetry math_sin late_turn (Nat.iter k count_request (__init__ 0))).2 = Ok t /\
     yaw (attitude t) = PFloat 360).
Proof.
  intros Hfin. split.
  - destruct (get_telemetry_fields math_sin t0 k d) as (t & Ht & _ & _ & Hy & _).
    destruct (FloatRange.yaw_range _ Hfin) as [Hlo Hhi].
    exists t. eexists. split; [exact Ht|]. split; [exact Hy|]. split; assumption.
  - destruct (get_telemetry_fields math_sin 0 k late_turn) as (t & Ht & _ & _ & Hy & _).
    exists t. split; [exact Ht|]. rewrite Hy. vm_compute. reflexivity.
Qed.

Lemma yaw_within_a_turn_witness :
  exists t y,
    (get_telemetry no_swing still_air (__init__ 0)).2 = Ok t /\
    yaw (attitude t) = PFloat y /\ (0 <=? y) = true /\ (y <=? 360) = true.
Proof.
  destruct (yaw_within_a_turn no_swing 0 0 still_air eq_refl) as [H _]. exact H.
Defined.

(** X5.  The ground speed, a draw from [0.5, 2.5] rounded to two
    decimals, lies between 0.5 and 2.5. *)
Theorem ground_speed_in_draw_range math_sin t0 (k : nat) d :
  (0.5 <=? speed d) = true -> (speed d <=? 2.5) = true ->
  exists t v,
    (get_telemetry math_sin d (Nat.iter k count_request (__init__ t0))).2 = Ok t /\
    ground_speed t = PFloat v /\ (0.5 <=? v) = true /\ (v <=? 2.5) = true.
Proof.
  intros H1 H2.
  destruct (get_telemetry_fields math_sin t0 k d) as (t & Ht & _ & _ & _ & Hs & _).
  destruct (FloatRange.speed_range _ H1 H2) as [Hlo Hhi].
  exists t. eexists. split; [exact Ht|]. split; [exact Hs|]. split; assumption.
Qed.

Lemma ground_speed_in_draw_range_witness :
  exists t v,
    (get_telemetry no_swing still_air (__init__ 0)).2 = Ok t /\
    ground_speed t = PFloat v /\ (0.5 <=? v) = true /\ (v <=? 2.5) = true.
Proof.
  exact (ground_speed_in_draw_range no_swing 0 0 still_air eq_refl eq_refl).
Defined.

Lemma ceiling_test_below_3000 : holds_below ceiling_test 3000 = true.
Proof. vm_compute. reflexivity. Qed.

(** X6.  Every call on a generator that has served any number
    of calls since it was created returns a battery voltage between 14.0
    and 16.8, the cutoff and the full charge of the pack. *)
Theorem battery_within_pack_range math_sin t0 (k : nat) d :
  exists t v,
    (get_telemetry math_sin d (Nat.iter k count_request (__init__ t0))).2 = Ok t /\
    battery_voltage t = PFloat v /\ (14.0 <=? v) = true /\ (v <=? 16.8) = true.
Proof.
  destruct (get_telemetry_fields math_sin t0 k d) as (t & Ht & _ & _ & _ & _ & _ & _ & _ & Hv).
  destruct (reported_bounds (Z.of_nat (S k))) as (Hlo & _ & _); [lia|].
  exists t. eexists. split; [exact Ht|]. split; [exact Hv|]. split; [exact Hlo|].
  destruct (Z.lt_ge_cases (Z.of_nat (S k)) 3000) as [Hlt|Hge].
  - apply (holds_below_spec _ 3000 ceiling_test_below_3000). lia.
  - rewrite (voltage_floor 0 _ Hge). vm_compute. reflexivity.
Qed.

End DroneStateFields.

(** ** The snapshot bridge, when the bridge answers *)

Module DJIDroneReplies.
Import Py DJIDrone DJIDroneFacts.
#[local] Open Scope float_scope.

Lemma not_failed r : ~ failed r -> exists kvs, r = Ok (PDict kvs).
Proof.
  destruct r as [[]|]; cbn; intros H; try (destruct H; exact I). eauto.
Qed.

Lemma fetch_replies now a v g s :
  fetch now {| api_attitude := Ok (PDict a); api_battery := Ok (PDict v);
               api_gps := Ok (PDict g); api_status := Ok (PDict s) |}
  = Ok
    {| timestamp := PFloat now;
       altitude := default (PFloat 0) (assoc g "altitude");
       battery_voltage := default (PFloat 0) (assoc v "voltage");
       status := default (PStr "UNKNOWN") (assoc s "flight_mode");
       attitude := {| roll := default (PFloat 0) (assoc a "roll");
                      pitch := default (PFloat 0) (assoc a "pitch");
                      yaw := default (PFloat 0) (assoc a "yaw") |};
       gps := {| satellites := default (PInt 0) (assoc g "satellite_count");
                 latitude := default (PFloat 0) (assoc g "latitude");
                 longitude := default (PFloat 0) (assoc g "longitude");
                 gps_altitude := default (PFloat 0) (assoc g "altitude") |};
       signal_strength := default (PInt 0) (assoc s "signal_strength");
       ground_speed := default (PFloat 0) (assoc g "speed");
       armed := default (PBool false) (assoc s "motors_on");
       flight_mode := default (PStr "UNKNOWN") (assoc s "flight_mode") |}.
Proof. reflexivity. Qed.

Lemma fetch_cases b :
  (failed (api_attitude b) \/ failed (api_battery b) \/
   failed (api_gps b) \/ failed (api_status b)) \/
  exists a v g s,
    b = {| api_attitude := Ok (PDict a); api_battery := Ok (PDict v);
           api_gps := Ok (PDict g); api_status := Ok (PDict s) |}.
Proof.
  destruct b as [[[]|] [[]|] [[]|] [[]|]]; cbn; try (left; tauto).
  right. eauto.
Qed.

(** X7.  When each of the four requests is answered with a JSON
    object, [get_telemetry] returns the record built from the replies:
    every field is the value the reply holds under its key, unchanged and
    unchecked, and the field's own default when the key is missing; the
    time stamp is the clock read in the [try] body; the status is the
    flight mode, and the two altitudes are the same. *)
Theorem bridge_replies_fill_record now later b :
  ~ failed (api_attitude b) -> ~ failed (api_battery b) ->
  ~ failed (api_gps b) -> ~ failed (api_status b) ->
  exists a v g s,
    api_attitude b = Ok (PDict a) /\ api_battery b = Ok (PDict v) /\
    api_gps b = Ok (PDict g) /\ api_status b = Ok (PDict s) /\
    get_telemetry now later b =
      Ok {| timestamp := PFloat now;
            altitude := default (PFloat 0) (assoc g "altitude");
            battery_voltage := default (PFloat 0) (assoc v "voltage");
            status := default (PStr "UNKNOWN") (assoc s "flight_mode");
            attitude := {| roll := default (PFloat 0) (assoc a "roll");
                           pitch := default (PFloat 0) (assoc a "pitch");
                           yaw := default (PFloat 0) (assoc a "yaw") |};
            gps := {| satellites := default (PInt 0) (assoc g "satellite_count");
                      latitude := default (PFloat 0) (assoc g "latitude");
                      longitude := default (PFloat 0) (assoc g "longitude");
                      gps_altitude := default (PFloat 0) (assoc g "altitude") |};
            signal_strength := default (PInt 0) (assoc s "signal_strength");
            ground_speed := default (PFloat 0) (assoc g "speed");
            armed := default (PBool false) (assoc s "motors_on");
            flight_mode := default (PStr "UNKNOWN") (assoc s "flight_mode") |}.
Proof.
  intros Ha Hv Hg Hs.
  destruct (not_failed _ Ha) as [a Ea], (not_failed _ Hv) as [v Ev],
           (not_failed _ Hg) as [g Eg], (not_failed _ Hs) as [s Es].
  exists a, v, g, s. repeat (split; [assumption|]).
  destruct b as [ra rv rg rs]. cbn in Ea, Ev, Eg, Es. subst. reflexivity.
Qed.

Lemma bridge_replies_fill_record_witness :
  exists t, get_telemetry 100 101 all_up = Ok t /\
            altitude t = PFloat 30.5 /\ ground_speed t = PFloat 0 /\
            status t = PStr "P-GPS".
Proof.
  destruct (bridge_replies_fill_record 100 101 all_up) as (a & v & g & s & Ea & Ev & Eg & Es & Ht);
    [cbn; tauto | cbn; tauto | cbn; tauto | cbn; tauto |].
  eexists. split; [exact Ht|].
  cbn in Ea, Ev, Eg, Es.
  injection Ea as <-. injection Ev as <-. injection Eg as <-. injection Es as <-.
  repeat split.
Defined.

(** X8.  [get_telemetry] returns the status DISCONNECTED only
    when one of the four requests failed, or when the status reply of the
    bridge itself carries DISCONNECTED as its flight mode. *)
Theorem disconnected_only_on_failure now later b t :
  get_telemetry now later b = Ok t ->
  status t = PStr "DISCONNECTED" ->
  (failed (api_attitude b) \/ failed (api_battery b) \/
   failed (api_gps b) \/ failed (api_status b)) \/
  exists s, api_status b = Ok (PDict s) /\
            assoc s "flight_mode" = Some (PStr "DISCONNECTED").
Proof.
  intros Ht Hs. destruct (fetch_cases b) as [Hf|(a & v & g & s & ->)]; [left; exact Hf|].
  right. exists s. split; [reflexivity|].
  unfold get_telemetry in Ht. rewrite fetch_replies in Ht. cbn [try_except] in Ht.
  apply (f_equal (fun r => match r with Ok t => Some (status t) | Raise _ => None end)) in Ht.
  cbn [status] in Ht. rewrite Hs in Ht.
  destruct (assoc s "flight_mode") as [m|]; cbn [default] in Ht.
  - injection Ht as ->. reflexivity.
  - injection Ht as Ht. discriminate Ht.
Qed.

Lemma disconnected_only_on_failure_witness :
  failed (api_attitude gps_down) \/ failed (api_battery gps_down) \/
  failed (api_gps gps_down) \/ failed (api_status gps_down).
Proof.
  destruct (disconnected_only_on_failure 100 101 gps_down (_empty_telemetry 101)
              eq_refl eq_refl) as [H|(s & Hs & Hm)].
  - exact H.
  - cbn in Hs. injection Hs as <-. cbn in Hm. discriminate Hm.
Defined.

End DJIDroneReplies.

(** ** The streaming ingestor: the dictionary, the thread and the call *)

Module MAVLinkDroneStore.
Import Py MAVLinkDrone MAVLinkDroneFacts.
#[local] Open Scope float_scope.

Section Store.
Variable mode_string_v10 : message -> string.
#[local] Abbreviation assignments := (assignments mode_string_v10).
#[local] Abbreviation _process_message := (_process_message mode_string_v10).
#[local] Abbreviation loop_body := (loop_body mode_string_v10).
#[local] Abbreviation handled := (handled mode_string_v10).

Lemma assigned_keys_distinct msg : NoDup (assignments msg).*1.
Proof.
  destruct msg; cbn;
    repeat (apply NoDup_cons; split;
            [rewrite ?not_elem_of_cons; repeat split; (discriminate || apply not_elem_of_nil)|]);
    apply NoDup_nil_2.
Qed.

Lemma foldl_assign_read (kvs : list (string * pyval)) : forall lt k v,
  NoDup kvs.*1 -> (k, v) ∈ kvs -> foldl assign lt kvs !! k = Some v.
Proof.
  induction kvs as [|[k' v'] kvs IH]; intros lt k v Hnd Hin; [apply elem_of_nil in Hin; destruct Hin|].
  cbn [fmap list_fmap fst] in Hnd. apply NoDup_cons in Hnd as [Hk' Hnd].
  cbn [foldl]. apply elem_of_cons in Hin as [Heq|Hin].
  - injection Heq as -> ->. rewrite (foldl_assign_other kvs) by exact Hk'.
    unfold assign. cbn [fst snd]. apply lookup_insert_eq.
  - apply IH; assumption.
Qed.

(** X9.  What [_process_message] assigns for a message is what the
    dictionary holds under that key afterwards, whatever it held before. *)
Theorem process_message_read_back msg lt k v :
  (k, v) ∈ assignments msg -> _process_message msg lt !! k = Some v.
Proof.
  intros Hin. apply foldl_assign_read; [apply assigned_keys_distinct | exact Hin].
Qed.

Lemma foldl_assign_lookup_in (kvs : list (string * pyval)) : forall lt k,
  k ∈ kvs.*1 -> exists v, foldl assign lt kvs !! k = Some v /\ (k, v) ∈ kvs.
Proof.
  induction kvs as [|[k' v'] kvs IH]; intros lt k Hk; [apply elem_of_nil in Hk; destruct Hk|].
  cbn [foldl]. destruct (decide (k ∈ kvs.*1)) as [Hin|Hnin].
  - destruct (IH (assign lt (k', v')) k Hin) as (v & Hv & Hvin). exists v. split; [exact Hv | right; exact Hvin].
  - cbn [fmap list_fmap fst] in Hk. apply elem_of_cons in Hk as [->|Hk]; [|contradiction].
    exists v'. split; [|left]. rewrite foldl_assign_other by exact Hnin.
    unfold assign. cbn [fst snd]. apply lookup_insert_eq.
Qed.

(** The dictionary after a run of assignments depends on the earlier
    dictionary only outside the assigned keys. *)
Lemma foldl_assign_ext (kvs : list (string * pyval)) lt1 lt2 :
  (forall k, k ∉ kvs.*1 -> lt1 !! k = lt2 !! k) ->
  foldl assign lt1 kvs = foldl assign lt2 kvs.
Proof.
  revert lt1 lt2. induction kvs as [|[k' v'] kvs IH]; intros lt1 lt2 H.
  - apply map_eq. intros k. apply H. apply not_elem_of_nil.
  - cbn [foldl]. apply IH. intros k Hk. unfold assign. cbn [fst snd].
    destruct (decide (k' = k)) as [->|Hne].
    + rewrite !lookup_insert_eq. reflexivity.
    + rewrite !lookup_insert_ne by exact Hne. apply H.
      cbn [fmap list_fmap fst]. rewrite not_elem_of_cons. split; [congruence | exact Hk].
Qed.

(** X10.  A message that assigns the same keys as an earlier one
    hides it: the dictionary after both is the dictionary after the later
    one alone.  In particular processing one message twice is processing
    it once. *)
Theorem later_message_overwrites m1 m2 lt :
  (assignments m1).*1 = (assignments m2).*1 ->
  _process_message m2 (_process_message m1 lt) = _process_message m2 lt.
Proof.
  intros Hk. unfold MAVLinkDrone._process_message. apply foldl_assign_ext.
  intros k Hnin. apply foldl_assign_other. rewrite Hk. exact Hnin.
Qed.

(** X11.  Two messages that assign no key in common can be
    processed in either order: the dictionary is the same. *)
Theorem different_kinds_commute m1 m2 lt :
  (forall k, k ∈ (assignments m1).*1 -> k ∈ (assignments m2).*1 -> False) ->
  _process_message m1 (_process_message m2 lt) = _process_message m2 (_process_message m1 lt).
Proof.
  intros Hd. apply map_eq. intros k. unfold MAVLinkDrone._process_message.
  destruct (decide (k ∈ (assignments m1).*1)) as [H1|H1];
    destruct (decide (k ∈ (assignments m2).*1)) as [H2|H2].
  - destruct (Hd k H1 H2).
  - destruct (foldl_assign_lookup_in (assignments m1) (foldl assign lt (assignments m2)) k H1)
      as (v & Hv & Hin).
    rewrite Hv. rewrite (foldl_assign_other (assignments m2)) by exact H2.
    symmetry. apply foldl_assign_read; [apply assigned_keys_distinct | exact Hin].
  - destruct (foldl_assign_lookup_in (assignments m2) (foldl assign lt (assignments m1)) k H2)
      as (v & Hv & Hin).
    rewrite Hv. rewrite (foldl_assign_other (assignments m1)) by exact H1.
    apply foldl_assign_read; [apply assigned_keys_distinct | exact Hin].
  - rewrite !foldl_assign_other by assumption. reflexivity.
Qed.


(** *** Nothing is removed *)

Lemma foldl_assign_keeps (kvs : list (string * pyval)) : forall lt k,
  is_Some (lt !! k) -> is_Some (foldl assign lt kvs !! k).
Proof.
  induction kvs as [|[k' v'] kvs IH]; intros lt k Hk; [exact Hk|].
  cbn [foldl]. apply IH. unfold assign. cbn [fst snd].
  destruct (decide (k' = k)) as [->|Hne].
  - rewrite lookup_insert_eq. eauto.
  - rewrite lookup_insert_ne by exact Hne. exact Hk.
Qed.

Lemma loop_body_keeps r lt k : is_Some (lt !! k) -> is_Some (loop_body r lt !! k).
Proof. destruct r; cbn; [apply foldl_assign_keeps | auto | auto]. Qed.

Lemma handled_app o1 o2 :
  handled (o1 ++ o2) = foldl (fun lt r => loop_body r lt) (handled o1) o2.
Proof. unfold MAVLinkDrone.handled. apply foldl_app. Qed.

(** X12.  The receive loop never removes an entry: a key the dictionary
    holds after some outcomes of [recv_match] is still there after any
    further outcomes. *)
Theorem stored_keys_stay o1 o2 k :
  is_Some (handled o1 !! k) -> is_Some (handled (o1 ++ o2) !! k).
Proof.
  rewrite handled_app. generalize (handled o1).
  induction o2 as [|r o2 IH]; intros lt Hk; [exact Hk|].
  cbn [foldl]. apply IH, loop_body_keeps, Hk.
Qed.

(** X13.  Timeouts and failed receives leave no trace: the
    dictionary after any outcomes of [recv_match] is the dictionary after
    the messages among them, in the same order. *)
Theorem only_messages_count outcomes :
  handled outcomes = handled (Received <$> received outcomes).
Proof.
  unfold MAVLinkDrone.handled. generalize (∅ : gmap string pyval).
  induction outcomes as [|r outcomes IH]; intros lt; [reflexivity|].
  destruct r as [msg| |]; cbn [foldl received omap list_omap fmap list_fmap]; apply IH.
Qed.

(** *** The armed flag *)

Lemma armed_bit base_mode :
  negb (Z.land base_mode MAV_MODE_FLAG_SAFETY_ARMED =? 0)%Z = Z.testbit base_mode 7.
Proof.
  unfold MAV_MODE_FLAG_SAFETY_ARMED. change 128%Z with (2 ^ 7)%Z.
  assert (H : Z.land base_mode (2 ^ 7) = if Z.testbit base_mode 7 then (2 ^ 7)%Z else 0%Z).
  { apply Z.bits_inj'. intros n Hn. rewrite Z.land_spec, Z.pow2_bits_eqb by lia.
    destruct (Z.eqb_spec 7 n) as [<-|Hne].
    - rewrite andb_true_r. destruct (Z.testbit base_mode 7).
      + rewrite Z.pow2_bits_true by lia. reflexivity.
      + rewrite Z.bits_0. reflexivity.
    - rewrite andb_false_r. destruct (Z.testbit base_mode 7).
      + rewrite Z.pow2_bits_false by lia. reflexivity.
      + rewrite Z.bits_0. reflexivity. }
  rewrite H. destruct (Z.testbit base_mode 7); reflexivity.
Qed.

(** X14.  Right after a heartbeat is processed, the snapshot has
    [armed] equal to bit 7 (value 128) of the heartbeat's base mode, its
    status is ARMED when that bit is set and DISARMED otherwise, and its
    flight mode is the string [mode_string_v10] gives for the heartbeat. *)
Theorem heartbeat_sets_status ty autopilot base_mode custom_mode outcomes now :
  exists t,
    get_telemetry now
      (_process_message (HEARTBEAT ty autopilot base_mode custom_mode) (handled outcomes)) = Ok t /\
    armed t = PBool (Z.testbit base_mode 7) /\
    status t = PStr (if Z.testbit base_mode 7 then "ARMED" else "DISARMED") /\
    flight_mode t = PStr (mode_string_v10 (HEARTBEAT ty autopilot base_mode custom_mode)).
Proof.
  set (msg := HEARTBEAT ty autopilot base_mode custom_mode).
  set (lt := _process_message msg (handled outcomes)).
  assert (Hlt : floats_where_rounded lt)
    by apply process_message_typed, handled_typed.
  assert (Ha : lt_get lt ("armed", PBool false) = PBool (Z.testbit base_mode 7)).
  { unfold lt_get. cbn [fst snd]. unfold lt.
    unfold MAVLinkDrone._process_message.
    rewrite (foldl_assign_read _ _ "armed"
               (PBool (negb (Z.land base_mode MAV_MODE_FLAG_SAFETY_ARMED =? 0)%Z))
               (assigned_keys_distinct msg)) by (cbn; left).
    cbn [default]. rewrite armed_bit. reflexivity. }
  assert (Hm : lt_get lt ("flight_mode", PStr "UNKNOWN") = PStr (mode_string_v10 msg)).
  { unfold lt_get. cbn [fst snd]. unfold lt.
    unfold MAVLinkDrone._process_message.
    rewrite (foldl_assign_read _ _ "flight_mode" (PStr (mode_string_v10 msg))
               (assigned_keys_distinct msg)) by (cbn; right; left).
    reflexivity. }
  destruct (lt_get_rounded lt "roll" Hlt) as [r Hr]; [set_solver|].
  destruct (lt_get_rounded lt "pitch" Hlt) as [p Hp]; [set_solver|].
  destruct (lt_get_rounded lt "yaw" Hlt) as [y Hy]; [set_solver|].
  destruct (lt_get_rounded lt "ground_speed" Hlt) as [s Hs]; [set_solver|].
  eexists. split; [exact (get_telemetry_of_reads now lt r p y s Hr Hp Hy Hs)|].
  cbn [armed status flight_mode]. rewrite Ha, Hm. cbn [truthy]. repeat split.
Qed.

(** A snapshot taken between messages is coherent. *)
Lemma quiet_snapshot_is_coherent outcomes now :
  exists t,
    get_telemetry now (handled outcomes) = Ok t /\
    altitude t = gps_altitude (gps t) /\
    status t = PStr (if truthy (armed t) then "ARMED" else "DISARMED").
Proof.
  pose proof (handled_typed mode_string_v10 outcomes) as Hlt.
  destruct (lt_get_rounded _ "roll" Hlt) as [r Hr]; [set_solver|].
  destruct (lt_get_rounded _ "pitch" Hlt) as [p Hp]; [set_solver|].
  destruct (lt_get_rounded _ "yaw" Hlt) as [y Hy]; [set_solver|].
  destruct (lt_get_rounded _ "ground_speed" Hlt) as [s Hs]; [set_solver|].
  eexists. split; [exact (get_telemetry_of_reads now _ r p y s Hr Hp Hy Hs)|].
  split; reflexivity.
Qed.


(** *** Any schedule *)

Lemma to_read_step a c :
  to_read (step a c) = match a with Reader => drop 1 (to_read c) | Writer => to_read c end.
Proof.
  destruct a; unfold step.
  - destruct (pending c); reflexivity.
  - destruct (to_read c) eqn:Hc; [rewrite Hc|]; reflexivity.
Qed.

Lemma to_read_run schedule : forall c,
  to_read (run schedule c) = drop (reader_steps schedule) (to_read c).
Proof.
  unfold run. induction schedule as [|a schedule IH]; intros c; [reflexivity|].
  cbn [foldl]. rewrite IH, to_read_step. unfold reader_steps.
  destruct a; cbn [List.filter length]; [reflexivity|].
  rewrite drop_drop. reflexivity.
Qed.

(** Values that answer the reads are of the types the display needs. *)
Lemma assemble_answers writes now vs :
  (forall k v, (k, v) ∈ writes -> k ∈ rounded_keys -> exists f, v = PFloat f) ->
  Forall2 (from_writes writes) reads vs ->
  exists t, assemble now vs = Ok t /\
            (status t = PStr "ARMED" \/ status t = PStr "DISARMED") /\
            signal_strength t = PInt 100.
Proof.
  unfold reads. intros Hty Hf.
  repeat match goal with
         | H : Forall2 _ (_ :: _) _ |- _ =>
             apply Forall2_cons_inv_l in H as (? & ? & ? & H & ->)
         | H : Forall2 _ [] _ |- _ => apply Forall2_nil_inv_l in H as ->
         end.
  assert (Hfl : forall k v, k ∈ rounded_keys -> from_writes writes (k, PFloat 0) v ->
                            exists f, v = PFloat f).
  { intros k v Hk [->|Hw]; [eauto | exact (Hty k v Hw Hk)]. }
  repeat match goal with
         | H : from_writes _ (?k, PFloat _) ?v |- _ =>
             is_var v;
             let Hk := fresh in
             assert (Hk : k ∈ rounded_keys)
               by (unfold rounded_keys; solve [repeat first [left | right]]);
             destruct (Hfl k v Hk H) as [? ->]; clear Hk
         end.
  eexists. split; [reflexivity|]. cbn [status signal_strength].
  split; [|reflexivity].
  match goal with |- context [truthy ?v] => destruct (truthy v) end; [left | right]; reflexivity.
Qed.

(** X15.  However the item assignments of the thread and the
    reads of a call are interleaved, a call that has made its thirteen
    reads returns a record and does not raise; its status is ARMED or
    DISARMED and its signal strength is 100. *)
Theorem snapshot_under_any_schedule now schedule msgs :
  (13 <= reader_steps schedule)%nat ->
  exists t,
    snapshot mode_string_v10 now schedule ∅ msgs = Some (Ok t) /\
    (status t = PStr "ARMED" \/ status t = PStr "DISARMED") /\
    signal_strength t = PInt 100.
Proof.
  intros Hn. unfold snapshot.
  pose proof (run_consistent _ schedule _ (start_consistent mode_string_v10 msgs))
    as [_ _ (done & Hd & Hf)].
  rewrite to_read_run in Hd |- *. cbn [start to_read] in Hd |- *.
  rewrite drop_ge in Hd |- * by (cbn; exact Hn).
  rewrite app_nil_r in Hd. subst done.
  destruct (assemble_answers _ now _
              (fun k v Hw Hk =>
                 let '(ex_intro _ msg (conj _ Hin)) := written_by_message mode_string_v10 msgs k v Hw in
                 assignments_typed mode_string_v10 msg k v Hin Hk) Hf)
    as (t & Ht & Hs & Hss).
  exists t. rewrite Ht. auto.
Qed.

(** *** The thread and [disconnect] *)

Lemma set_latest_same self : set_latest (latest_telemetry self) self = self.
Proof. destruct self; reflexivity. Qed.

(** X16.  While [running] is set the receive loop goes on, whether
    its [recv_match] calls come back with a message, with a timeout or
    with an error: after 2k steps the thread is at the loop head again, after 2k+1 steps it is
    inside [recv_match], it has not finished, and the dictionary has gone
    through k loop bodies; nothing else of the object has changed. *)
Theorem receive_loop_goes_on r self k :
  running self = true ->
  thread_steps mode_string_v10 r (2 * k) self AtLoopHead
  = (set_latest (Nat.iter k (loop_body r) (latest_telemetry self)) self, AtLoopHead) /\
  thread_steps mode_string_v10 r (2 * k + 1) self AtLoopHead
  = (set_latest (Nat.iter k (loop_body r) (latest_telemetry self)) self, InRecv).
Proof.
  intros Hrun. unfold thread_steps.
  assert (Heven : Nat.iter (2 * k) (fun c => thread_step mode_string_v10 r c.1 c.2) (self, AtLoopHead)
                  = (set_latest (Nat.iter k (loop_body r) (latest_telemetry self)) self, AtLoopHead)).
  { induction k as [|k IH]; [cbn; rewrite set_latest_same; reflexivity|].
    replace (2 * S k)%nat with (S (S (2 * k))) by lia.
    cbn [Nat.iter nat_rect] in IH |- *. unfold Nat.iter in IH |- *. cbn [nat_rect].
    rewrite IH. cbn [fst snd thread_step running set_latest latest_telemetry].
    rewrite Hrun. cbn [fst snd thread_step running set_latest latest_telemetry]. reflexivity. }
  split; [exact Heven|].
  replace (2 * k + 1)%nat with (S (2 * k)) by lia.
  unfold Nat.iter in Heven |- *. cbn [nat_rect]. rewrite Heven.
  cbn [fst snd thread_step running set_latest]. rewrite Hrun. reflexivity.
Qed.

(** X17.  [disconnect] clears [running], ends the thread if there
    is one and closes the link if there is one, and keeps the connection
    string and the dictionary: the only change to the dictionary is that a
    message arriving in the receive that was pending is still stored.  On
    an object that was never connected it changes nothing. *)
Theorem disconnect_keeps_data r self :
  let self' := disconnect mode_string_v10 r self in
  running self' = false /\
  connection_string self' = connection_string self /\
  thread self' = (fun _ => Finished) <$> thread self /\
  master self' = (fun _ => LinkClosed) <$> master self /\
  latest_telemetry self'
  = match thread self, r with
    | Some InRecv, Received msg => _process_message msg (latest_telemetry self)
    | _, _ => latest_telemetry self
    end /\
  forall c, disconnect mode_string_v10 r (__init__ c) = __init__ c.
Proof.
  unfold disconnect, join, thread_steps. cbn [running thread].
  destruct self as [c m lt b th]. cbn [thread master latest_telemetry connection_string running].
  destruct th as [[| |]|]; destruct m; destruct r; cbn; repeat split.
Qed.

End Store.

(** X18.  [get_telemetry] reads the altitude twice, for the
    top-level field and for the GPS field.  When no assignment comes in
    between the two are equal, and the status is ARMED exactly when the
    [armed] entry is true; when the thread stores a position message
    between the two reads they differ (10.0 and 20.0 in the example). *)
Theorem altitude_is_read_twice mode_string_v10 now outcomes :
  (exists t,
     get_telemetry now (handled mode_string_v10 outcomes) = Ok t /\
     altitude t = gps_altitude (gps t) /\
     status t = PStr (if truthy (armed t) then "ARMED" else "DISARMED")) /\
  (exists t,
     snapshot mode_string_v10 now writer_cuts_in ∅ two_fixes = Some (Ok t) /\
     altitude t = PFloat 10 /\ gps_altitude (gps t) = PFloat 20).
Proof.
  split; [apply quiet_snapshot_is_coherent|].
  eexists. split; [vm_compute; reflexivity|]. split; vm_compute; reflexivity.
Qed.

Lemma process_message_read_back_witness :
  _process_message mode_names (SYS_STATUS 15200 80) {["battery_remaining" := PInt 90]}
    !! "battery_remaining" = Some (PInt 80).
Proof.
  apply (process_message_read_back mode_names (SYS_STATUS 15200 80)).
  cbn [assignments]. right. left.
Defined.

Lemma later_message_overwrites_witness :
  _process_message mode_names (ATTITUDE 0 1 0) (_process_message mode_names (ATTITUDE 1 0 0) ∅)
  = _process_message mode_names (ATTITUDE 0 1 0) ∅.
Proof.
  apply (later_message_overwrites mode_names (ATTITUDE 1 0 0) (ATTITUDE 0 1 0) ∅). reflexivity.
Defined.

Lemma different_kinds_commute_witness :
  _process_message mode_names (ATTITUDE 1 0 0) (_process_message mode_names (SYS_STATUS 15200 80) ∅)
  = _process_message mode_names (SYS_STATUS 15200 80) (_process_message mode_names (ATTITUDE 1 0 0) ∅).
Proof.
  apply (different_kinds_commute mode_names (ATTITUDE 1 0 0) (SYS_STATUS 15200 80) ∅).
  intros k H1 H2. cbn in H1, H2.
  repeat (apply elem_of_cons in H1 as [->|H1];
          [repeat (apply elem_of_cons in H2 as [H2|H2]; [discriminate H2|]);
           apply elem_of_nil in H2; exact H2|]).
  apply elem_of_nil in H1. exact H1.
Defined.

Lemma stored_keys_stay_witness :
  is_Some (handled mode_names ([Received (SYS_STATUS 15200 80)] ++ [TimedOut; Received (ATTITUDE 1 0 0)])
             !! "battery_remaining").
Proof.
  apply (stored_keys_stay mode_names [Received (SYS_STATUS 15200 80)]).
  exists (PInt 80). reflexivity.
Defined.

Lemma snapshot_under_any_schedule_witness :
  exists t, snapshot mode_names 0 reader_cuts_in ∅ two_fixes = Some (Ok t) /\
            signal_strength t = PInt 100.
Proof.
  destruct (snapshot_under_any_schedule mode_names 0 reader_cuts_in two_fixes)
    as (t & Ht & _ & Hs); [vm_compute; lia|].
  exists t. split; assumption.
Defined.

Lemma receive_loop_goes_on_witness :
  thread_steps mode_names RecvFailed 6 waiting AtLoopHead = (waiting, AtLoopHead).
Proof.
  exact (proj1 (receive_loop_goes_on mode_names RecvFailed waiting 3 eq_refl)).
Defined.

End MAVLinkDroneStore.
